(** * Salesforce report tool: the result formatter and the request dispatcher

    A shallow embedding of [src/tools/reports.ts]: the two formatting
    functions [formatReportResults] and [formatGroupings], and the dispatcher
    [handleManageReports].  The TypeScript source reads report trees of type
    [any]; the embedding keeps them dynamic: a report tree is a JSON value,
    a property read of [null] or [undefined] raises, and every [?.], [??],
    [||] and truthiness test of the source is kept where the source has it. *)

From Stdlib Require Import String Ascii List ZArith Lia Bool.
From Stdlib Require Import Decimal DecimalString DecimalNat.
Import ListNotations.
Open Scope string_scope.

(* ------------------------------------------------------------------ *)
(** ** JavaScript values and the primitives the module relies on *)
(* ------------------------------------------------------------------ *)

Module JS.

(** JSON data plus [undefined].  Numbers are the integers; text is a Rocq
    string (one character per code unit, which is accurate for ASCII).  An
    object is its table of own properties in the order [Object.keys]
    enumerates them; a property is looked up by its first entry. *)
#[warnings="-register-all"]
Inductive jsval : Type :=
| JUndef
| JNull
| JBool (b : bool)
| JNum (n : Z)
| JStr (s : string)
| JArr (elems : list jsval)
| JObj (props : list (string * jsval)).

(** What a [throw] carries: an [Error] instance with its message, or any
    other value. *)
Inductive thrown : Type :=
| ErrorObject (message : string)
| Thrown (v : jsval).

(** The result of running a piece of code: a value, or a raised fault. *)
Inductive outcome (A : Type) : Type :=
| Ret (a : A)
| Throw (e : thrown).
Arguments Ret {A} a.
Arguments Throw {A} e.

Definition bind {A B : Type} (m : outcome A) (k : A -> outcome B) : outcome B :=
  match m with
  | Ret a => k a
  | Throw e => Throw e
  end.

Notation "x <- m ;; k" := (bind m (fun x => k))
  (at level 61, m at next level, right associativity).

(** *** Text *)

Definition nl : string := String (ascii_of_nat 10) "".

(** The double quote character. *)
Definition dq : string := String (ascii_of_nat 34) "".

Definition string_of_nat (n : nat) : string :=
  NilZero.string_of_uint (Nat.to_uint n).

(** The decimal digits of an integer.  This is the text JavaScript gives a
    number that is a safe integer (at most 2^53 - 1 in absolute value);
    larger numbers are rounded and, from 10^21 on, printed with an
    exponent, which is not embedded. *)
Definition string_of_Z (z : Z) : string :=
  NilZero.string_of_int (Z.to_int z).

(** [s.repeat(n)] *)
Fixpoint repeat_string (s : string) (n : nat) : string :=
  match n with
  | O => ""
  | S n' => s ++ repeat_string s n'
  end.

(** [s.includes(sub)] *)
Fixpoint includes (s sub : string) : bool :=
  if String.prefix sub s then true
  else match s with
       | EmptyString => false
       | String _ rest => includes rest sub
       end.

(** [s.endsWith(suffix)], used to state how a query ends. *)
Definition ends_with (s suffix : string) : bool :=
  let n := String.length s in
  let m := String.length suffix in
  (m <=? n)%nat && String.eqb (String.substring (n - m) m s) suffix.

(** [strings.join(sep)] on an array of strings. *)
Definition join (sep : string) (l : list string) : string :=
  String.concat sep l.

(** [lines.push(x)] *)
Definition push (lines : list string) (x : string) : list string :=
  (lines ++ [x])%list.

(** *** Conversions *)

Definition nullish (v : jsval) : bool :=
  match v with
  | JUndef | JNull => true
  | _ => false
  end.

(** ToBoolean *)
Definition truthy (v : jsval) : bool :=
  match v with
  | JUndef | JNull => false
  | JBool b => b
  | JNum n => negb (n =? 0)%Z
  | JStr s => negb (String.eqb s "")
  | JArr _ | JObj _ => true
  end.

(** ToString, as a template literal and [String(v)] apply it.  Inside an
    array, [null] and [undefined] elements are rendered as empty text. *)
Fixpoint to_string (v : jsval) : string :=
  match v with
  | JUndef => "undefined"
  | JNull => "null"
  | JBool true => "true"
  | JBool false => "false"
  | JNum n => string_of_Z n
  | JStr s => s
  | JArr l =>
      String.concat ","
        ((fix go (l : list jsval) : list string :=
            match l with
            | [] => []
            | x :: r => (if nullish x then "" else to_string x) :: go r
            end) l)
  | JObj _ => "[object Object]"
  end.

(** The text [Array.prototype.join] gives to one element. *)
Definition join_elem (v : jsval) : string :=
  if nullish v then "" else to_string v.

(** [values.join(sep)] on an array of arbitrary values. *)
Definition join_vals (sep : string) (l : list jsval) : string :=
  String.concat sep (map join_elem l).

(** ToNumber, for the values this development reads as numbers: numbers,
    booleans and [null].  [None] is NaN, which is also what [undefined]
    and an object without a [toString] of its own convert to.  Reading a
    number out of text, or out of an array through its text, is not
    embedded: both are taken for NaN here, and a statement that rests on
    such a comparison is made for values whose [length] is neither. *)
Definition to_number (v : jsval) : option Z :=
  match v with
  | JNum n => Some n
  | JBool true => Some 1%Z
  | JBool false => Some 0%Z
  | JNull => Some 0%Z
  | _ => None
  end.

(** [v > 0] *)
Definition gt0 (v : jsval) : bool :=
  match to_number v with
  | Some n => (0 <? n)%Z
  | None => false
  end.

(** How many [i = 0, 1, 2, ...] satisfy [i < v]: the number of rounds of
    [for (let i = 0; i < v; i++)]. *)
Definition loop_bound (v : jsval) : nat :=
  match to_number v with
  | Some n => Z.to_nat n
  | None => O
  end.

(** [a || b] and [a ?? b] *)
Definition or_else (a b : jsval) : jsval := if truthy a then a else b.
Definition nullish_or (a b : jsval) : jsval := if nullish a then b else a.

(** *** Property access *)

Fixpoint assoc (k : string) (ps : list (string * jsval)) : option jsval :=
  match ps with
  | [] => None
  | (k', v) :: rest => if String.eqb k' k then Some v else assoc k rest
  end.

(** The array index a property key denotes, when it is the canonical
    decimal text of a natural number. *)
Definition index_of (k : string) : option nat :=
  match NilZero.uint_of_string k with
  | Some d =>
      let n := Nat.of_uint d in
      if String.eqb (string_of_nat n) k then Some n else None
  | None => None
  end.

(** [v[k]] on a value that is neither [null] nor [undefined].  Arrays and
    text answer [length] and their indices.  Members inherited from the
    built-in prototypes are not data and read as [undefined] here, which
    is what the module gets when it reads a further data property off such
    a result; the one read whose result it tests for truth goes through
    [get_member] below. *)
Definition prop (v : jsval) (k : string) : jsval :=
  match v with
  | JObj ps =>
      match assoc k ps with
      | Some x => x
      | None => JUndef
      end
  | JArr l =>
      if String.eqb k "length" then JNum (Z.of_nat (List.length l))
      else match index_of k with
           | Some i => nth i l JUndef
           | None => JUndef
           end
  | JStr s =>
      if String.eqb k "length" then JNum (Z.of_nat (String.length s))
      else match index_of k with
           | Some i =>
               match String.get i s with
               | Some c => JStr (String c "")
               | None => JUndef
               end
           | None => JUndef
           end
  | _ => JUndef
  end.

(** The engine's TypeError, worded as Node.js words it. *)
Definition TypeError (message : string) : thrown := ErrorObject message.

Definition cannot_read (v : jsval) (k : string) : thrown :=
  TypeError ("Cannot read properties of " ++ to_string v
             ++ " (reading '" ++ k ++ "')").

(** [v.k] *)
Definition get (v : jsval) (k : string) : outcome jsval :=
  if nullish v then Throw (cannot_read v k) else Ret (prop v k).

(** [v?.k] *)
Definition get_opt (v : jsval) (k : string) : jsval :=
  if nullish v then JUndef else prop v k.

(** [v[i]] with a numeric index. *)
Definition get_index (v : jsval) (i : nat) : outcome jsval :=
  get v (string_of_nat i).

(** [v[key]] with a computed key: the key is turned into text first. *)
Definition get_computed (v key : jsval) : outcome jsval :=
  get v (to_string key).

Fixpoint indices (from count : nat) : list string :=
  match count with
  | O => []
  | S c => string_of_nat from :: indices (S from) c
  end.

(** [Object.keys(v)] *)
Definition object_keys (v : jsval) : outcome (list string) :=
  match v with
  | JUndef | JNull =>
      Throw (TypeError "Cannot convert undefined or null to object")
  | JObj ps => Ret (map fst ps)
  | JArr l => Ret (indices 0 (List.length l))
  | JStr s => Ret (indices 0 (String.length s))
  | JBool _ | JNum _ => Ret []
  end.

(** [Object.entries(v)] *)
Definition object_entries (v : jsval) : outcome (list (string * jsval)) :=
  keys <- object_keys v ;;
  Ret (map (fun k => (k, prop v k)) keys).

(** *** Loops *)

(** The body of a loop run over the elements of a list, threading the
    state [S]; a fault in one round ends the loop. *)
Definition iter {A S : Type} (body : A -> S -> outcome S) :=
  fix go (l : list A) (s : S) : outcome S :=
    match l with
    | [] => Ret s
    | x :: rest => bind (body x s) (go rest)
    end.

(** [for (const x of v) body]: an array yields its elements, text yields
    its characters, nothing else in a JSON value can be iterated.  [what]
    is the source text of [v], which the engine quotes in that fault. *)
Definition for_of {S : Type} (what : string) (v : jsval)
    (body : jsval -> S -> outcome S) (s : S) : outcome S :=
  match v with
  | JArr l => iter body l s
  | JStr t => iter (fun c => body (JStr (String c ""))) (list_ascii_of_string t) s
  | JUndef | JNull | JBool _ | JNum _ | JObj _ =>
      Throw (TypeError (what ++ " is not iterable"))
  end.

(** [for (let i = 0; i < n; i++) body] *)
Definition for_index {S : Type} (n : nat) (body : nat -> S -> outcome S)
    (s : S) : outcome S :=
  iter body (seq 0 n) s.

(** The callback of [map] applied to each element with its index. *)
Definition mapi {A B : Type} (f : A -> nat -> outcome B) :=
  fix go (l : list A) (i : nat) : outcome (list B) :=
    match l with
    | [] => Ret []
    | x :: rest =>
        y <- f x i ;;
        ys <- go rest (S i) ;;
        Ret (y :: ys)
    end.

(** [v.map(f)]: only an array has the method. *)
Definition method_map {B : Type} (what : string) (v : jsval)
    (f : jsval -> nat -> outcome B) : outcome (list B) :=
  match v with
  | JUndef | JNull => Throw (cannot_read v "map")
  | JArr l => mapi f l 0
  | JBool _ | JNum _ | JStr _ | JObj _ =>
      Throw (TypeError (what ++ ".map is not a function"))
  end.

(** The own property [k] of an object, handed to a continuation.  It is
    [prop] in the shape the recursion of [formatGroupings] needs: the
    property comes out of the object's table, so a function called on it
    is called on a part of the object. *)
Definition own_prop {R : Type} (k : string) (found : jsval -> R) (missing : R) :=
  fix go (ps : list (string * jsval)) : R :=
    match ps with
    | [] => missing
    | (k', v) :: rest => if String.eqb k' k then found v else go rest
    end.

Definition with_prop {R : Type} (v : jsval) (k : string)
    (found : jsval -> R) (missing : R) : R :=
  match v with
  | JObj ps => own_prop k found missing ps
  | _ => missing
  end.

(** *** Inherited members *)

(** The names every value inherits from [Object.prototype]: methods, and
    the accessor [__proto__]. *)
Definition object_prototype_members : list string :=
  [ "constructor"; "__defineGetter__"; "__defineSetter__"; "hasOwnProperty";
    "__lookupGetter__"; "__lookupSetter__"; "isPrototypeOf";
    "propertyIsEnumerable"; "toString"; "valueOf"; "__proto__";
    "toLocaleString" ].

(** Whether [k] is an own property of [v]. *)
Definition has_own (v : jsval) (k : string) : bool :=
  match v with
  | JObj ps =>
      match assoc k ps with
      | Some _ => true
      | None => false
      end
  | JArr l =>
      String.eqb k "length"
      || match index_of k with
         | Some i => (i <? List.length l)%nat
         | None => false
         end
  | JStr s =>
      String.eqb k "length"
      || match index_of k with
         | Some i => (i <? String.length s)%nat
         | None => false
         end
  | _ => false
  end.

(** What a property read finds: data, or a built-in member inherited from
    [Object.prototype], which is truthy and carries none of the data
    properties the module reads.  The members a value inherits from the
    prototype of its own kind ([Array.prototype], [String.prototype], ...)
    are not embedded. *)
Inductive member : Type :=
| Data (v : jsval)
| Builtin.

Definition member_truthy (m : member) : bool :=
  match m with
  | Data v => truthy v
  | Builtin => true
  end.

(** [m.k] *)
Definition read (m : member) (k : string) : outcome jsval :=
  match m with
  | Data v => get v k
  | Builtin => Ret JUndef
  end.

(** [v[key]] where the result is tested before it is read. *)
Definition get_member (v key : jsval) : outcome member :=
  let k := to_string key in
  if nullish v then Throw (cannot_read v k)
  else if has_own v k then Ret (Data (prop v k))
  else if existsb (String.eqb k) object_prototype_members then Ret Builtin
  else Ret (Data JUndef).

End JS.

(* ------------------------------------------------------------------ *)
(** ** The result formatter *)
(* ------------------------------------------------------------------ *)

Module Reports.
Import JS.

(** [aggKeys[i] ? (aggregateInfo[aggKeys[i]]?.label || aggKeys[i])
               : `Aggregate ${i}`] *)
Definition aggregate_label (aggKeys : list string) (aggregateInfo : jsval)
    (i : nat) : outcome string :=
  let key := match nth_error aggKeys i with
             | Some k => JStr k
             | None => JUndef
             end in
  if truthy key then
    entry <- get_computed aggregateInfo key ;;
    Ret (to_string (or_else (get_opt entry "label") key))
  else Ret ("Aggregate " ++ string_of_nat i).

(** [agg.label ?? agg.value ?? 'N/A'] *)
Definition aggregate_value (agg : jsval) : outcome jsval :=
  label <- get agg "label" ;;
  value <- get agg "value" ;;
  Ret (nullish_or label (nullish_or value (JStr "N/A"))).

(** The loop over a bucket's aggregates.  The source writes it twice, for
    the grand totals (lines 150-155) and for a group's subtotals (lines
    214-219), with the same body up to the indentation of the line. *)
Definition push_aggregates (indent : string) (aggregates aggregateInfo : jsval)
    (lines : list string) : outcome (list string) :=
  aggKeys <- object_keys aggregateInfo ;;
  len <- get aggregates "length" ;;
  for_index (loop_bound len) (fun i lines =>
    agg <- get_index aggregates i ;;
    label <- aggregate_label aggKeys aggregateInfo i ;;
    value <- aggregate_value agg ;;
    Ret (push lines (indent ++ label ++ ": " ++ to_string value))) lines.

(** [cell.label ?? cell.value ?? ''] *)
Definition cell_value (cell : jsval) : outcome jsval :=
  label <- get cell "label" ;;
  value <- get cell "value" ;;
  Ret (nullish_or label (nullish_or value (JStr ""))).

(** One grouping node without its sub-groupings: the header, the subtotals
    and the detail rows of the group (lines 208-234). *)
Definition formatGroup (indent : string)
    (group factMap aggregateInfo columnInfo metadata : jsval)
    (includeDetails : bool) (lines : list string) : outcome (list string) :=
  label <- get group "label" ;;
  value <- get group "value" ;;
  let lines := push lines
    (indent ++ to_string label ++ " (" ++ to_string value ++ "):") in
  (* Get subtotals for this group *)
  gkey <- get group "key" ;;
  let key := to_string gkey ++ "!T" in
  groupData <- get factMap key ;;
  let aggregates := get_opt groupData "aggregates" in
  lines <- (if gt0 (get_opt aggregates "length")
            then push_aggregates (indent ++ "  ") aggregates aggregateInfo lines
            else Ret lines) ;;
  (* Detail rows for this group *)
  let rows := get_opt groupData "rows" in
  if includeDetails && gt0 (get_opt rows "length") then
    len <- get rows "length" ;;
    let lines := push lines (indent ++ "  Rows (" ++ to_string len ++ "):") in
    let detailColumns := or_else (get_opt metadata "detailColumns") (JArr []) in
    for_of "groupData.rows" rows (fun row lines =>
      dataCells <- get row "dataCells" ;;
      cells <- method_map "row.dataCells" dataCells (fun cell idx =>
        colName <- get_index detailColumns idx ;;
        info <- get_computed columnInfo colName ;;
        let label := or_else (or_else (get_opt info "label") colName)
                             (JStr ("Col" ++ string_of_nat idx)) in
        value <- cell_value cell ;;
        Ret (to_string label ++ ": " ++ to_string value)) ;;
      Ret (push lines (indent ++ "    " ++ join ", " cells))) lines
  else Ret lines.

(** Recursively format grouped report results (lines 195-241).  The
    recursion follows [group.groupings], a part of [group]. *)
Fixpoint formatGroupings
    (groupings factMap aggregateInfo columnInfo metadata : jsval)
    (includeDetails : bool) (lines : list string) (depth : nat)
    {struct groupings} : outcome (list string) :=
  let indent := repeat_string "  " (depth + 1) in
  for_of "groupings" groupings (fun group lines =>
    lines <- formatGroup indent group factMap aggregateInfo columnInfo
                         metadata includeDetails lines ;;
    (* Recurse into sub-groupings: [group.groupings?.length > 0] *)
    with_prop group "groupings"
      (fun sub =>
         if gt0 (get_opt sub "length")
         then formatGroupings sub factMap aggregateInfo columnInfo metadata
                              includeDetails lines (depth + 1)
         else Ret lines)
      (Ret lines)) lines.

(** The report metadata summary (lines 108-119). *)
Definition metadata_summary (metadata : jsval) (lines : list string)
    : outcome (list string) :=
  if truthy metadata then
    name <- get metadata "name" ;;
    let lines := push lines ("Report: " ++ to_string name) in
    reportFormat <- get metadata "reportFormat" ;;
    let lines := push lines ("Format: " ++ to_string reportFormat) in
    reportFilters <- get metadata "reportFilters" ;;
    lines <- (if gt0 (get_opt reportFilters "length") then
                len <- get reportFilters "length" ;;
                let lines := push lines ("Active Filters: " ++ to_string len) in
                for_of "metadata.reportFilters" reportFilters (fun filter lines =>
                  column <- get filter "column" ;;
                  operator <- get filter "operator" ;;
                  value <- get filter "value" ;;
                  Ret (push lines ("  - " ++ to_string column ++ " "
                                   ++ to_string operator ++ " "
                                   ++ to_string value))) lines
              else Ret lines) ;;
    Ret (push lines "")
  else Ret lines.

(** The grand totals, bucket [T!T] (lines 144-157). *)
Definition grand_totals (factMap aggregateInfo : jsval) (lines : list string)
    : outcome (list string) :=
  grandTotals <- get factMap "T!T" ;;
  if truthy grandTotals then
    aggregates <- get grandTotals "aggregates" ;;
    if gt0 (get_opt aggregates "length") then
      let lines := push lines "" in
      let lines := push lines "Grand Totals:" in
      push_aggregates "  " aggregates aggregateInfo lines
    else Ret lines
  else Ret lines.

(** The detail rows of the grand-total bucket (lines 159-180). *)
Definition detail_rows (factMap columnInfo metadata : jsval)
    (includeDetails : bool) (lines : list string) : outcome (list string) :=
  bucket <- get factMap "T!T" ;;
  let rows := get_opt bucket "rows" in
  if includeDetails && truthy rows then
    let lines := push lines "" in
    len <- get rows "length" ;;
    let lines := push lines ("Detail Rows (" ++ to_string len ++ "):") in
    (* Column headers *)
    let detailColumns := or_else (get_opt metadata "detailColumns") (JArr []) in
    headerLabels <- method_map "detailColumns" detailColumns (fun col _ =>
      info <- get_computed columnInfo col ;;
      Ret (or_else (get_opt info "label") col)) ;;
    let lines :=
      if (0 <? List.length headerLabels)%nat then
        let lines := push lines ("  | " ++ join_vals " | " headerLabels ++ " |") in
        push lines ("  | " ++ join " | " (map (fun _ => "---") headerLabels) ++ " |")
      else lines in
    (* Data rows *)
    for_of "rows" rows (fun row lines =>
      dataCells <- get row "dataCells" ;;
      cells <- method_map "row.dataCells" dataCells (fun cell _ =>
        cell_value cell) ;;
      Ret (push lines ("  | " ++ join_vals " | " cells ++ " |"))) lines
  else Ret lines.

(** The lines [formatReportResults] assembles, before they are joined. *)
Definition formatReportResults_lines (result : jsval) (includeDetails : bool)
    : outcome (list string) :=
  let lines : list string := [] in
  (* Report metadata summary *)
  metadata <- get result "reportMetadata" ;;
  lines <- metadata_summary metadata lines ;;
  (* Extended metadata for column labels *)
  extendedMeta <- get result "reportExtendedMetadata" ;;
  let columnInfo := or_else (get_opt extendedMeta "detailColumnInfo") (JObj []) in
  let aggregateInfo := or_else (get_opt extendedMeta "aggregateColumnInfo") (JObj []) in
  (* Fact map data *)
  factMap <- get result "factMap" ;;
  if negb (truthy factMap) then Ret (push lines "No data returned.")
  else
    (* Grouping info *)
    down <- get result "groupingsDown" ;;
    let groupingsDown := or_else (get_opt down "groupings") (JArr []) in
    across <- get result "groupingsAcross" ;;
    let groupingsAcross := or_else (get_opt across "groupings") (JArr []) in
    downLen <- get groupingsDown "length" ;;
    let lines := if gt0 downLen
                 then push lines ("Row Groupings: " ++ to_string downLen)
                 else lines in
    acrossLen <- get groupingsAcross "length" ;;
    let lines := if gt0 acrossLen
                 then push lines ("Column Groupings: " ++ to_string acrossLen)
                 else lines in
    lines <- grand_totals factMap aggregateInfo lines ;;
    lines <- detail_rows factMap columnInfo metadata includeDetails lines ;;
    (* Grouped results (for summary/matrix reports) *)
    if gt0 downLen then
      let lines := push lines "" in
      let lines := push lines "Grouped Results:" in
      formatGroupings groupingsDown factMap aggregateInfo columnInfo metadata
                      includeDetails lines 0
    else Ret lines.

(** Format report fact map results into readable text (lines 104-190). *)
Definition formatReportResults (result : jsval) (includeDetails : bool)
    : outcome string :=
  lines <- formatReportResults_lines result includeDetails ;;
  Ret (join nl lines).

End Reports.

(* ------------------------------------------------------------------ *)
(** ** The request dispatcher *)
(* ------------------------------------------------------------------ *)

Module Handler.
Import JS Reports.

Record ReportFilter : Type := {
  column : string;
  operator : string;
  value : string
}.

Record ManageReportsArgs : Type := {
  operation : string;
  reportId : option string;
  instanceId : option string;
  includeDetails : option bool;
  filters : option (list ReportFilter);
  queryFilter : option string;
  limit : option Z
}.

(** The tool result: [content] is a single text entry. *)
Record Response : Type := {
  text : string;
  isError : bool
}.

(** The calls the module makes on the connection. *)
Inductive call : Type :=
| Query (soql : string)                          (* conn.query(soql) *)
| RecentReports                                  (* conn.analytics.reports() *)
| Describe (report : string)                     (* report.describe() *)
| Execute (report : string) (options : jsval)    (* report.execute(options) *)
| ExecuteAsync (report : string) (options : jsval)
| Instances (report : string)                    (* report.instances() *)
| Retrieve (report instance : string).           (* report.instance(id).retrieve() *)

(** The connection: what each call answers once awaited, a value or a
    fault. *)
Definition Conn : Type := call -> outcome jsval.

(** Code that awaits calls on the connection: it runs on the log of the
    calls issued so far, and the log survives a fault. *)
Definition H (A : Type) : Type := list call -> outcome A * list call.

Definition pure {A : Type} (m : outcome A) : H A := fun log => (m, log).

Definition await (conn : Conn) (c : call) : H jsval :=
  fun log => (conn c, (log ++ [c])%list).

Definition bindH {A B : Type} (m : H A) (k : A -> H B) : H B :=
  fun log =>
    match m log with
    | (Ret a, log') => k a log'
    | (Throw e, log') => (Throw e, log')
    end.

Notation "x <~ m ;; k" := (bindH m (fun x => k))
  (at level 61, m at next level, right associativity).

(** Truthiness of the optional arguments. *)
Definition given (s : option string) : option string :=
  match s with
  | Some t => if String.eqb t "" then None else Some t
  | None => None
  end.

Definition flag (b : option bool) : bool :=
  match b with
  | Some true => true
  | _ => false
  end.

Definition ok (t : string) : Response := {| text := t; isError := false |}.
Definition failed (t : string) : Response := {| text := t; isError := true |}.

(** [`SELECT ... FROM Report WHERE ${queryFilter}`] and its LIMIT clause
    (lines 251-253). *)
Definition list_soql (queryFilter : string) (limit : option Z) : string :=
  let soql := "SELECT Id, Name, Description, Format, DeveloperName, FolderName, LastRunDate, CreatedDate, LastModifiedDate FROM Report WHERE " ++ queryFilter in
  match limit with
  | Some n => if negb (n =? 0)%Z then soql ++ " LIMIT " ++ string_of_Z n
              else soql ++ " LIMIT 200"
  | None => soql ++ " LIMIT 200"
  end.

Definition filter_object (f : ReportFilter) : jsval :=
  JObj [("column", JStr (column f));
        ("operator", JStr (operator f));
        ("value", JStr (value f))].

(** The options of [execute] (lines 396-413). *)
Definition execute_options (includeDetails : option bool)
    (filters : option (list ReportFilter)) : jsval :=
  let options : list (string * jsval) := [] in
  let options :=
    if flag includeDetails then (options ++ [("details", JBool true)])%list
    else options in
  (* Apply runtime filter overrides *)
  let options :=
    match filters with
    | Some (f :: fs) =>
        (options ++
         [("metadata",
           JObj [("reportMetadata",
                  JObj [("reportFilters",
                         JArr (map filter_object (f :: fs)))])])])%list
    | _ => options
    end in
  JObj options.

(** The options of [executeAsync] (lines 436-452). *)
Definition executeAsync_options (includeDetails : option bool)
    (filters : option (list ReportFilter)) : jsval :=
  let options : list (string * jsval) := [] in
  let options :=
    if flag includeDetails then (options ++ [("details", JBool true)])%list
    else options in
  let options :=
    match filters with
    | Some (f :: fs) =>
        (options ++
         [("metadata",
           JObj [("reportMetadata",
                  JObj [("reportFilters",
                         JArr (map filter_object (f :: fs)))])])])%list
    | _ => options
    end in
  JObj options.

(** [if (truthy) parts.push(line)] *)
Definition push_if (c : jsval) (parts : list string) (line : string) : list string :=
  if truthy c then push parts line else parts.

Definition list_by_query (conn : Conn) (queryFilter : string) (limit : option Z)
    : H Response :=
  (* Use SOQL to search reports with broader criteria *)
  let soql := list_soql queryFilter limit in
  result <~ await conn (Query soql) ;;
  pure (
    records <- get result "records" ;;
    reports <- method_map "result.records" records (fun r index =>
      name <- get r "Name" ;;
      id <- get r "Id" ;;
      developerName <- get r "DeveloperName" ;;
      format <- get r "Format" ;;
      folderName <- get r "FolderName" ;;
      let parts :=
        [ string_of_nat (index + 1) ++ ". " ++ to_string name;
          "   ID: " ++ to_string id;
          "   Developer Name: " ++ to_string (or_else developerName (JStr "N/A"));
          "   Format: " ++ to_string (or_else format (JStr "N/A"));
          "   Folder: " ++ to_string (or_else folderName (JStr "N/A")) ] in
      description <- get r "Description" ;;
      let parts := push_if description parts
                     ("   Description: " ++ to_string description) in
      lastRunDate <- get r "LastRunDate" ;;
      let parts := push_if lastRunDate parts
                     ("   Last Run: " ++ to_string lastRunDate) in
      Ret (join nl parts)) ;;
    len <- get records "length" ;;
    Ret (ok ("Found " ++ to_string len ++ " reports:" ++ nl ++ nl
             ++ join (nl ++ nl) reports))).

Definition list_recent (conn : Conn) : H Response :=
  (* Use Analytics API to get recently viewed reports *)
  reports <~ await conn RecentReports ;;
  pure (
    formatted <- method_map "reports" reports (fun r index =>
      name <- get r "name" ;;
      id <- get r "id" ;;
      let parts := [ string_of_nat (index + 1) ++ ". " ++ to_string name;
                     "   ID: " ++ to_string id ] in
      url <- get r "url" ;;
      let parts := push_if url parts ("   URL: " ++ to_string url) in
      Ret (join nl parts)) ;;
    len <- get reports "length" ;;
    Ret (ok ("Recently viewed reports (" ++ to_string len ++ "):" ++ nl ++ nl
             ++ join (nl ++ nl) formatted))).

(** One [Row Groupings] or [Column Groupings] section of [describe]. *)
Definition describe_groupings (what title : string) (groupings : jsval)
    (lines : list string) : outcome (list string) :=
  if gt0 (get_opt groupings "length") then
    let lines := push lines "" in
    let lines := push lines title in
    for_of what groupings (fun g lines =>
      name <- get g "name" ;;
      sortOrder <- get g "sortOrder" ;;
      dateGranularity <- get g "dateGranularity" ;;
      Ret (push lines ("  - " ++ to_string name ++ " (sort: "
                       ++ to_string sortOrder ++ ", agg: "
                       ++ to_string (or_else dateGranularity (JStr "none"))
                       ++ ")"))) lines
  else Ret lines.

Definition describe_report (conn : Conn) (reportId : string) : H Response :=
  meta <~ await conn (Describe reportId) ;;
  pure (
    let lines : list string := [] in
    rm <- get meta "reportMetadata" ;;
    name <- get rm "name" ;;
    let lines := push lines ("Report: " ++ to_string name) in
    id <- get rm "id" ;;
    let lines := push lines ("ID: " ++ to_string id) in
    reportFormat <- get rm "reportFormat" ;;
    let lines := push lines ("Format: " ++ to_string reportFormat) in
    reportType <- get rm "reportType" ;;
    let lines := push lines
      ("Report Type: "
       ++ to_string (or_else (get_opt reportType "type") (JStr "N/A"))) in
    description <- get rm "description" ;;
    let lines := push lines
      ("Description: " ++ to_string (or_else description (JStr "N/A"))) in
    (* Detail columns *)
    detailColumns <- get rm "detailColumns" ;;
    lines <- (if gt0 (get_opt detailColumns "length") then
                let lines := push lines "" in
                let lines := push lines "Detail Columns:" in
                extended <- get meta "reportExtendedMetadata" ;;
                let detailInfo :=
                  or_else (get_opt extended "detailColumnInfo") (JObj []) in
                for_of "rm.detailColumns" detailColumns (fun col lines =>
                  info <- get_member detailInfo col ;;
                  if member_truthy info then
                    label <- read info "label" ;;
                    dataType <- read info "dataType" ;;
                    Ret (push lines ("  - " ++ to_string label ++ " ("
                                     ++ to_string col ++ ") ["
                                     ++ to_string dataType ++ "]"))
                  else Ret (push lines ("  - " ++ to_string col))) lines
              else Ret lines) ;;
    (* Groupings *)
    groupingsDown <- get rm "groupingsDown" ;;
    lines <- describe_groupings "rm.groupingsDown" "Row Groupings:"
               groupingsDown lines ;;
    groupingsAcross <- get rm "groupingsAcross" ;;
    lines <- describe_groupings "rm.groupingsAcross" "Column Groupings:"
               groupingsAcross lines ;;
    (* Filters *)
    reportFilters <- get rm "reportFilters" ;;
    lines <- (if gt0 (get_opt reportFilters "length") then
                let lines := push lines "" in
                let lines := push lines "Filters:" in
                for_of "rm.reportFilters" reportFilters (fun f lines =>
                  column <- get f "column" ;;
                  operator <- get f "operator" ;;
                  value <- get f "value" ;;
                  Ret (push lines ("  - " ++ to_string column ++ " "
                                   ++ to_string operator ++ " "
                                   ++ to_string value))) lines
              else Ret lines) ;;
    (* Aggregates *)
    extended <- get meta "reportExtendedMetadata" ;;
    let aggInfo := get_opt extended "aggregateColumnInfo" in
    lines <- (if truthy aggInfo then
                keys <- object_keys aggInfo ;;
                if (0 <? List.length keys)%nat then
                  let lines := push lines "" in
                  let lines := push lines "Aggregates:" in
                  entries <- object_entries aggInfo ;;
                  iter (fun (entry : string * jsval) lines =>
                    let (key, info) := entry in
                    label <- get info "label" ;;
                    dataType <- get info "dataType" ;;
                    Ret (push lines ("  - " ++ to_string label ++ " (" ++ key
                                     ++ ") [" ++ to_string dataType ++ "]")))
                    entries lines
                else Ret lines
              else Ret lines) ;;
    (* Report type metadata *)
    rtm <- get meta "reportTypeMetadata" ;;
    let categories := get_opt rtm "categories" in
    lines <- (if gt0 (get_opt categories "length") then
                let lines := push lines "" in
                let lines := push lines "Available Categories/Objects:" in
                for_of "rtm.categories" categories (fun cat lines =>
                  label <- get cat "label" ;;
                  name <- get cat "name" ;;
                  Ret (push lines ("  - " ++ to_string label ++ " ("
                                   ++ to_string name ++ ")"))) lines
              else Ret lines) ;;
    Ret (ok (join nl lines))).

Definition execute_report (conn : Conn) (reportId : string)
    (includeDetails : option bool) (filters : option (list ReportFilter))
    : H Response :=
  let options := execute_options includeDetails filters in
  result <~ await conn (Execute reportId options) ;;
  pure (
    formatted <- formatReportResults result (flag includeDetails) ;;
    Ret (ok formatted)).

Definition executeAsync_report (conn : Conn) (reportId : string)
    (includeDetails : option bool) (filters : option (list ReportFilter))
    : H Response :=
  let options := executeAsync_options includeDetails filters in
  instance <~ await conn (ExecuteAsync reportId options) ;;
  pure (
    id <- get instance "id" ;;
    status <- get instance "status" ;;
    requestDate <- get instance "requestDate" ;;
    Ret (ok ("Report execution started asynchronously." ++ nl ++ nl
             ++ "Instance ID: " ++ to_string id ++ nl
             ++ "Status: " ++ to_string status ++ nl
             ++ "Request Date: " ++ to_string (or_else requestDate (JStr "N/A"))
             ++ nl ++ nl
             ++ "Use operation " ++ dq ++ "getInstanceResults" ++ dq
             ++ " with this instanceId to retrieve results once complete."))).

(** [v === 0] *)
Definition is_zero (v : jsval) : bool :=
  match v with
  | JNum n => (n =? 0)%Z
  | _ => false
  end.

Definition getInstances_report (conn : Conn) (reportId : string) : H Response :=
  instances <~ await conn (Instances reportId) ;;
  pure (
    if negb (truthy instances) || is_zero (prop instances "length") then
      Ret (ok "No async report instances found for this report.")
    else
      formatted <- method_map "instances" instances (fun inst index =>
        id <- get inst "id" ;;
        status <- get inst "status" ;;
        requestDate <- get inst "requestDate" ;;
        completionDate <- get inst "completionDate" ;;
        Ret (join nl
          [ string_of_nat (index + 1) ++ ". Instance ID: " ++ to_string id;
            "   Status: " ++ to_string status;
            "   Request Date: " ++ to_string (or_else requestDate (JStr "N/A"));
            "   Completion Date: "
              ++ to_string (or_else completionDate (JStr "N/A")) ])) ;;
      len <- get instances "length" ;;
      Ret (ok ("Found " ++ to_string len ++ " report instance(s):" ++ nl ++ nl
               ++ join (nl ++ nl) formatted))).

Definition getInstanceResults_report (conn : Conn) (reportId instanceId : string)
    (includeDetails : option bool) : H Response :=
  result <~ await conn (Retrieve reportId instanceId) ;;
  pure (
    formatted <- formatReportResults result (flag includeDetails) ;;
    Ret (ok formatted)).

Definition required (field op : string) : H Response :=
  pure (Ret (failed (field ++ " is required for " ++ op ++ " operation"))).

(** The [switch] of the [try] block (lines 247-539). *)
Definition dispatch (conn : Conn) (args : ManageReportsArgs) : H Response :=
  let op := operation args in
  if String.eqb op "list" then
    match given (queryFilter args) with
    | Some q => list_by_query conn q (limit args)
    | None => list_recent conn
    end
  else if String.eqb op "describe" then
    match given (reportId args) with
    | None => required "reportId" "describe"
    | Some id => describe_report conn id
    end
  else if String.eqb op "execute" then
    match given (reportId args) with
    | None => required "reportId" "execute"
    | Some id => execute_report conn id (includeDetails args) (filters args)
    end
  else if String.eqb op "executeAsync" then
    match given (reportId args) with
    | None => required "reportId" "executeAsync"
    | Some id => executeAsync_report conn id (includeDetails args) (filters args)
    end
  else if String.eqb op "getInstances" then
    match given (reportId args) with
    | None => required "reportId" "getInstances"
    | Some id => getInstances_report conn id
    end
  else if String.eqb op "getInstanceResults" then
    match given (reportId args) with
    | None => required "reportId" "getInstanceResults"
    | Some id =>
        match given (instanceId args) with
        | None => required "instanceId" "getInstanceResults"
        | Some inst =>
            getInstanceResults_report conn id inst (includeDetails args)
        end
    end
  else
    pure (Ret (failed ("Unknown report operation: " ++ op
      ++ ". Valid operations: list, describe, execute, executeAsync, getInstances, getInstanceResults"))).

(** [error instanceof Error ? error.message : String(error)] *)
Definition errorMessage (e : thrown) : string :=
  match e with
  | ErrorObject message => message
  | Thrown v => to_string v
  end.

Definition access_hint : string :=
  nl ++ nl ++ "Ensure the user has:" ++ nl
  ++ "1. " ++ dq ++ "Run Reports" ++ dq ++ " permission" ++ nl
  ++ "2. Access to the report's folder" ++ nl
  ++ "3. The report ID is correct".

Definition not_found_hint : string :=
  nl ++ nl ++ "Check that the report ID is valid and starts with "
  ++ dq ++ "00O" ++ dq ++ ".".

(** The error translation of the [catch] block (lines 541-548). *)
Definition enhancedError (errorMessage : string) : string :=
  if includes errorMessage "INSUFFICIENT_ACCESS"
     || includes errorMessage "INVALID_CROSS_REFERENCE"
  then "Access error: " ++ errorMessage ++ access_hint
  else if includes errorMessage "INVALID_ID_FIELD"
          || includes errorMessage "NOT_FOUND"
  then "Report not found: " ++ errorMessage ++ not_found_hint
  else errorMessage.

(** One invocation: the tool result and the calls issued on the
    connection, in order. *)
Record Run : Type := {
  response : Response;
  calls : list call
}.

Definition handleManageReports (conn : Conn) (args : ManageReportsArgs) : Run :=
  match dispatch conn args [] with
  | (Ret r, log) => {| response := r; calls := log |}
  | (Throw error, log) =>
      {| response :=
           failed ("Error in report " ++ operation args ++ ": "
                   ++ enhancedError (errorMessage error));
         calls := log |}
  end.

End Handler.

(* ------------------------------------------------------------------ *)
(** ** Facts about the primitives *)
(* ------------------------------------------------------------------ *)

Module JSFacts.
Import JS.

Lemma append_assoc (a b c : string) : (a ++ b) ++ c = a ++ (b ++ c).
Proof.
  induction a as [|x a IH]; simpl; [reflexivity | now rewrite IH].
Qed.


Lemma length_append (a b : string) :
  String.length (a ++ b) = String.length a + String.length b.
Proof.
  induction a as [|x a IH]; simpl; [reflexivity | now rewrite IH].
Qed.

Lemma prefix_append (m rest : string) : String.prefix m (m ++ rest) = true.
Proof.
  induction m as [|x m IH]; simpl.
  - now destruct rest.
  - destruct (Ascii.ascii_dec x x) as [_|ne]; [exact IH | now elim ne].
Qed.

Lemma includes_prefix (s sub : string) :
  String.prefix sub s = true -> includes s sub = true.
Proof.
  intros H. destruct s; cbn [includes]; now rewrite H.
Qed.

Lemma includes_tail (c : ascii) (s sub : string) :
  includes s sub = true -> includes (String c s) sub = true.
Proof.
  intros H. cbn [includes]. now destruct (String.prefix sub (String c s)).
Qed.

(** A text that is written out between two others occurs in the whole. *)
Lemma includes_middle (before m after : string) :
  includes (before ++ m ++ after) m = true.
Proof.
  induction before as [|c before IH].
  - change (includes (m ++ after) m = true).
    apply includes_prefix, prefix_append.
  - apply includes_tail, IH.
Qed.


Lemma substring_all (s : string) : String.substring 0 (String.length s) s = s.
Proof.
  induction s as [|c s IH]; simpl; [reflexivity | now rewrite IH].
Qed.

Lemma substring_suffix (a b : string) :
  String.substring (String.length a) (String.length b) (a ++ b) = b.
Proof.
  induction a as [|c a IH]; simpl; [apply substring_all | exact IH].
Qed.

(** The last [length b] characters of [a ++ b] are [b]. *)
Lemma last_chars (a b : string) :
  String.substring (String.length (a ++ b) - String.length b)
                   (String.length b) (a ++ b) = b.
Proof.
  rewrite length_append.
  replace (String.length a + String.length b - String.length b)
    with (String.length a) by lia.
  apply substring_suffix.
Qed.

Lemma ends_with_append (a b : string) : ends_with (a ++ b) b = true.
Proof.
  unfold ends_with. rewrite last_chars, String.eqb_refl, andb_true_r.
  rewrite length_append. apply Nat.leb_le. lia.
Qed.

(** A text ending in [b] ends in no other text of the same length. *)
Lemma ends_with_other (a b b' : string) :
  String.length b' = String.length b -> b' <> b ->
  ends_with (a ++ b) b' = false.
Proof.
  intros Hlen Hne. unfold ends_with. rewrite Hlen, last_chars.
  apply andb_false_iff. right. apply String.eqb_neq. congruence.
Qed.

Lemma bind_ret {A B : Type} (a : A) (k : A -> outcome B) : bind (Ret a) k = k a.
Proof. reflexivity. Qed.

Lemma bind_returns {A B : Type} (m : outcome A) (k : A -> outcome B) (b : B) :
  bind m k = Ret b -> exists a, m = Ret a /\ k a = Ret b.
Proof.
  destruct m as [a|e]; simpl; intros H; [now exists a | discriminate].
Qed.

Lemma to_uint_not_nil (n : nat) : Nat.to_uint n <> Nil.
Proof.
  intros H. pose proof (Unsigned.to_of (Nat.to_uint n)) as E.
  rewrite Unsigned.of_to, H in E. discriminate E.
Qed.

Lemma index_of_string_of_nat (i : nat) : index_of (string_of_nat i) = Some i.
Proof.
  unfold index_of, string_of_nat.
  rewrite (NilZero.usu _ (to_uint_not_nil i)), Unsigned.of_to.
  now rewrite String.eqb_refl.
Qed.

Lemma string_of_nat_not_length (i : nat) :
  String.eqb (string_of_nat i) "length" = false.
Proof.
  apply String.eqb_neq. intros E.
  pose proof (NilZero.usu _ (to_uint_not_nil i)) as H.
  unfold string_of_nat in E. rewrite E in H. discriminate H.
Qed.

(** Reading an array by a numeric index. *)
Lemma prop_array_index (l : list jsval) (i : nat) :
  prop (JArr l) (string_of_nat i) = nth i l JUndef.
Proof.
  unfold prop. now rewrite string_of_nat_not_length, index_of_string_of_nat.
Qed.

Lemma get_index_array (l : list jsval) (i : nat) :
  get_index (JArr l) i = Ret (nth i l JUndef).
Proof.
  unfold get_index, get. cbn [nullish]. now rewrite prop_array_index.
Qed.

Lemma get_returns (v : jsval) (k : string) (x : jsval) :
  get v k = Ret x -> nullish v = false /\ x = prop v k.
Proof.
  unfold get. destruct (nullish v); [discriminate|].
  intros H. injection H as <-. now split.
Qed.

Lemma get_defined (v : jsval) (k : string) :
  nullish v = false -> get v k = Ret (prop v k).
Proof.
  intros H. unfold get. now rewrite H.
Qed.

Lemma truthy_not_nullish (v : jsval) : truthy v = true -> nullish v = false.
Proof. now destruct v. Qed.

Lemma or_else_truthy (a b : jsval) : truthy b = true -> truthy (or_else a b) = true.
Proof.
  intros H. unfold or_else. now destruct (truthy a) eqn:E.
Qed.

Lemma repeat_two_spaces (n : nat) :
  repeat_string "  " n = repeat_string " " (2 * n).
Proof.
  induction n as [|n IH]; [reflexivity|].
  replace (2 * S n) with (S (S (2 * n))) by lia.
  cbn [repeat_string]. now rewrite IH.
Qed.

Lemma length_spaces (n : nat) : String.length (repeat_string " " n) = n.
Proof.
  induction n as [|n IH]; [reflexivity|]. cbn. now rewrite IH.
Qed.

Lemma iter_cons {A S : Type} (body : A -> S -> outcome S) (x : A) (l : list A)
    (s : S) :
  iter body (x :: l) s = bind (body x s) (iter body l).
Proof. reflexivity. Qed.

Lemma iter_app {A S : Type} (body : A -> S -> outcome S) (l1 l2 : list A) (s : S) :
  iter body (l1 ++ l2)%list s = bind (iter body l1 s) (iter body l2).
Proof.
  revert s. induction l1 as [|x l1 IH]; intros s; cbn; [reflexivity|].
  destruct (body x s) as [s'|e]; cbn; [apply IH | reflexivity].
Qed.

(** A loop whose every round pushes one line, described by [R]. *)
Lemma iter_pushes {A : Type} (R : A -> string -> Prop)
    (body : A -> list string -> outcome (list string)) :
  (forall x s s', body x s = Ret s' -> exists y, R x y /\ s' = push s y) ->
  forall l s s', iter body l s = Ret s' ->
  exists ys, Forall2 R l ys /\ s' = (s ++ ys)%list.
Proof.
  intros Hbody. induction l as [|x l IH]; intros s s' H; cbn in H.
  - injection H as <-. exists []. split; [constructor | now rewrite app_nil_r].
  - apply bind_returns in H. destruct H as [s1 [H1 H2]].
    destruct (Hbody _ _ _ H1) as [y [Hy ->]].
    destruct (IH _ _ H2) as [ys [Hys ->]].
    exists (y :: ys). split; [now constructor|].
    unfold push. now rewrite <- app_assoc.
Qed.

Lemma mapi_returns {A B : Type} (f : A -> nat -> outcome B) (l : list A)
    (i : nat) (ys : list B) :
  mapi f l i = Ret ys ->
  Forall2 (fun x y => exists j, f x j = Ret y) l ys.
Proof.
  revert i ys. induction l as [|x l IH]; intros i ys H; cbn in H.
  - injection H as <-. constructor.
  - apply bind_returns in H. destruct H as [y [Hy H]].
    apply bind_returns in H. destruct H as [ys' [Hys H]].
    injection H as <-. constructor; [now exists i | now apply (IH (S i))].
Qed.

Lemma method_map_returns {B : Type} (what : string) (v : jsval)
    (f : jsval -> nat -> outcome B) (ys : list B) :
  method_map what v f = Ret ys ->
  exists l, v = JArr l /\ mapi f l 0 = Ret ys.
Proof.
  destruct v; cbn; try discriminate. intros H. now eexists.
Qed.

(** Code that only pushes lines: it returns the lines it was given,
    followed by the lines it added. *)
Definition extends (f : list string -> outcome (list string)) : Prop :=
  forall lines out, f lines = Ret out -> exists added, out = (lines ++ added)%list.

Lemma extends_iter {A : Type} (body : A -> list string -> outcome (list string))
    (l : list A) :
  (forall x, In x l -> extends (body x)) -> extends (iter body l).
Proof.
  induction l as [|x l IH]; intros Hbody lines out H; cbn in H.
  - injection H as <-. exists []. now rewrite app_nil_r.
  - apply bind_returns in H. destruct H as [mid [H1 H2]].
    destruct (Hbody x (or_introl eq_refl) _ _ H1) as [a1 ->].
    destruct (IH (fun y Hy => Hbody y (or_intror Hy)) _ _ H2) as [a2 ->].
    exists (a1 ++ a2)%list. now rewrite app_assoc.
Qed.

Lemma extends_for_of (what : string) (v : jsval)
    (body : jsval -> list string -> outcome (list string)) :
  (forall x, extends (body x)) -> extends (for_of what v body).
Proof.
  intros Hbody. destruct v; cbn [for_of]; try (intros lines out H; discriminate H).
  - apply extends_iter. intros c _. apply Hbody.
  - apply extends_iter. intros x _. apply Hbody.
Qed.

(** Taking a returning computation apart, one [bind] at a time. *)
Ltac returns H :=
  repeat match type of H with
  | bind _ _ = Ret _ =>
      let x := fresh "x" in
      let Hx := fresh "Hx" in
      apply bind_returns in H; destruct H as [x [Hx H]]
  end.

End JSFacts.

(* ------------------------------------------------------------------ *)
(** ** The dispatcher: validation, query text, options, error translation *)
(* ------------------------------------------------------------------ *)

Module HandlerProps.
Import JS Reports Handler JSFacts.

(** The operations the dispatcher knows that work on one report. *)
Definition report_operations : list string :=
  ["describe"; "execute"; "executeAsync"; "getInstances"; "getInstanceResults"].

(** Awaiting one call and then computing without the connection: the call
    is logged, and its fault, if any, is the fault of the whole. *)
Lemma await_then_pure {A : Type} (conn : Conn) (c : call)
    (k : jsval -> outcome A) (log : list call) :
  bindH (await conn c) (fun x => pure (k x)) log
  = (bind (conn c) k, (log ++ [c])%list).
Proof.
  unfold bindH, await, pure. now destruct (conn c).
Qed.

(** Every branch of the dispatcher either answers without the connection
    or awaits exactly one call. *)
Lemma dispatch_shape (conn : Conn) (args : ManageReportsArgs) :
  (exists r, dispatch conn args [] = (Ret r, []) /\ isError r = true)
  \/ (exists c k, dispatch conn args [] = (bind (conn c) k, [c])).
Proof.
  unfold dispatch.
  repeat match goal with
  | |- context [if ?b then _ else _] => destruct b
  | |- context [match given ?x with _ => _ end] => destruct (given x)
  end;
  try (left; eexists; split; reflexivity);
  right;
  unfold list_by_query, list_recent, describe_report, execute_report,
    executeAsync_report, getInstances_report, getInstanceResults_report;
  cbv zeta; rewrite await_then_pure; do 2 eexists; reflexivity.
Qed.

Lemma calls_of_dispatch (conn : Conn) (args : ManageReportsArgs) :
  calls (handleManageReports conn args) = snd (dispatch conn args []).
Proof.
  unfold handleManageReports.
  now destruct (dispatch conn args []) as [[r|e] log].
Qed.

Lemma list_by_query_calls (conn : Conn) (q : string) (lim : option Z) :
  snd (list_by_query conn q lim []) = [Query (list_soql q lim)].
Proof.
  unfold list_by_query. cbv zeta. now rewrite await_then_pure.
Qed.

Lemma list_soql_unfold (q : string) (lim : option Z) :
  exists clause,
    list_soql q lim =
      ("SELECT Id, Name, Description, Format, DeveloperName, FolderName, LastRunDate, CreatedDate, LastModifiedDate FROM Report "
       ++ ("WHERE " ++ q) ++ clause)
    /\ clause = match lim with
                | Some n => if (n =? 0)%Z then " LIMIT 200"
                            else " LIMIT " ++ string_of_Z n
                | None => " LIMIT 200"
                end.
Proof.
  eexists. split; [|reflexivity].
  unfold list_soql. destruct lim as [n|]; [destruct (n =? 0)%Z|]; cbn [negb];
    rewrite !append_assoc; reflexivity.
Qed.

(** C3.  A request whose operation is not [list] and that gives no
    [reportId], and a [getInstanceResults] request that gives no
    [instanceId], is answered with [isError = true] and issues no call on
    the connection; for each of the operations the dispatcher knows the
    text is "<field> is required for <operation> operation", where <field>
    is the missing field. *)
Theorem missing_field_refused_before_any_call
    (conn : Conn) (args : ManageReportsArgs) :
  operation args <> "list" ->
  given (reportId args) = None
  \/ (operation args = "getInstanceResults" /\ given (instanceId args) = None) ->
  let run := handleManageReports conn args in
  let field := match given (reportId args) with
               | None => "reportId"
               | Some _ => "instanceId"
               end in
  calls run = []
  /\ isError (response run) = true
  /\ (In (operation args) report_operations ->
      text (response run)
      = field ++ " is required for " ++ operation args ++ " operation").
Proof.
  destruct args as [op rid iid det fl qf lim]. cbn [operation reportId instanceId].
  unfold report_operations. intros Hlist Hmiss.
  unfold handleManageReports, dispatch.
  cbn [operation reportId instanceId includeDetails filters queryFilter limit].
  destruct (String.eqb_spec op "list") as [|_]; [contradiction|].
  repeat match goal with
  | |- context [String.eqb op ?name] =>
      destruct (String.eqb_spec op name) as [->|?]
  end;
  try (destruct Hmiss as [Hrid|[Hop Hiid]]; [|discriminate Hop];
       rewrite Hrid; repeat split; reflexivity).
  - destruct Hmiss as [Hrid|[_ Hiid]].
    + rewrite Hrid. repeat split; reflexivity.
    + destruct (given rid) as [id|]; [rewrite Hiid|]; repeat split; reflexivity.
  - split; [reflexivity|]. split; [reflexivity|]. cbn [In].
    intros [E|[E|[E|[E|[E|[]]]]]]; congruence.
Qed.

Definition describe_without_id : ManageReportsArgs :=
  {| operation := "describe"; reportId := None; instanceId := None;
     includeDetails := None; filters := None; queryFilter := None;
     limit := None |}.

Definition silent : Conn := fun _ => Ret JUndef.

Lemma missing_field_refused_example :
  calls (handleManageReports silent describe_without_id) = []
  /\ isError (response (handleManageReports silent describe_without_id)) = true
  /\ text (response (handleManageReports silent describe_without_id))
     = "reportId is required for describe operation".
Proof.
  destruct (missing_field_refused_before_any_call silent describe_without_id)
    as [Hcalls [Herr Htext]].
  - discriminate.
  - left. reflexivity.
  - split; [exact Hcalls|]. split; [exact Herr|].
    apply Htext. cbn. auto.
Defined.

(** C5.  A [list] request with a query filter issues one SOQL query, whose
    text contains "WHERE <queryFilter>"; with no limit it ends with
    "LIMIT 200", with limit 50 it ends with "LIMIT 50". *)
Theorem list_query_where_and_limit
    (conn : Conn) (args : ManageReportsArgs) (q : string) :
  operation args = "list" ->
  given (queryFilter args) = Some q ->
  exists soql,
    calls (handleManageReports conn args) = [Query soql]
    /\ includes soql ("WHERE " ++ q) = true
    /\ (limit args = None -> ends_with soql "LIMIT 200" = true)
    /\ (limit args = Some 50%Z -> ends_with soql "LIMIT 50" = true).
Proof.
  intros Hop Hq. exists (list_soql q (limit args)).
  split; [|split; [|split]].
  - rewrite calls_of_dispatch. unfold dispatch. rewrite Hop, Hq.
    cbn [String.eqb Ascii.eqb Bool.eqb]. apply list_by_query_calls.
  - destruct (list_soql_unfold q (limit args)) as [clause [-> _]].
    apply includes_middle.
  - intros ->. cbn [list_soql].
    rewrite <- (append_assoc _ " " "LIMIT 200"). apply ends_with_append.
  - intros ->. cbn [list_soql Z.eqb negb].
    change (string_of_Z 50) with "50".
    change (" LIMIT " ++ "50") with (" " ++ "LIMIT 50").
    rewrite <- (append_assoc _ " " "LIMIT 50"). apply ends_with_append.
Qed.

Definition list_revenue (lim : option Z) : ManageReportsArgs :=
  {| operation := "list"; reportId := None; instanceId := None;
     includeDetails := None; filters := None;
     queryFilter := Some "Format = 'MATRIX'"; limit := lim |}.

Lemma list_query_example :
  exists soql,
    calls (handleManageReports silent (list_revenue (Some 50%Z))) = [Query soql]
    /\ includes soql ("WHERE " ++ "Format = 'MATRIX'") = true
    /\ (limit (list_revenue (Some 50%Z)) = None -> ends_with soql "LIMIT 200" = true)
    /\ (limit (list_revenue (Some 50%Z)) = Some 50%Z -> ends_with soql "LIMIT 50" = true).
Proof.
  apply (list_query_where_and_limit silent (list_revenue (Some 50%Z))
           "Format = 'MATRIX'"); reflexivity.
Defined.

(** C10.  A [list] request with a query filter and an explicit limit of 0
    issues a query that ends with "LIMIT 200" and not with "LIMIT 0": the
    text is the one built when no limit is given. *)
Theorem list_zero_limit_is_default
    (conn : Conn) (args : ManageReportsArgs) (q : string) :
  operation args = "list" ->
  given (queryFilter args) = Some q ->
  limit args = Some 0%Z ->
  exists soql,
    calls (handleManageReports conn args) = [Query soql]
    /\ ends_with soql "LIMIT 200" = true
    /\ ends_with soql "LIMIT 0" = false
    /\ soql = list_soql q None.
Proof.
  intros Hop Hq Hlim. exists (list_soql q (limit args)).
  split; [|rewrite Hlim; split; [|split]].
  - rewrite calls_of_dispatch. unfold dispatch. rewrite Hop, Hq.
    cbn [String.eqb Ascii.eqb Bool.eqb]. apply list_by_query_calls.
  - cbn [list_soql Z.eqb negb].
    rewrite <- (append_assoc _ " " "LIMIT 200"). apply ends_with_append.
  - cbn [list_soql Z.eqb negb].
    change " LIMIT 200" with (" LI" ++ "MIT 200").
    rewrite <- (append_assoc _ " LI" "MIT 200").
    apply ends_with_other; [reflexivity | discriminate].
  - reflexivity.
Qed.

Lemma list_zero_limit_example :
  exists soql,
    calls (handleManageReports silent (list_revenue (Some 0%Z))) = [Query soql]
    /\ ends_with soql "LIMIT 200" = true
    /\ ends_with soql "LIMIT 0" = false
    /\ soql = list_soql "Format = 'MATRIX'" None.
Proof.
  apply (list_zero_limit_is_default silent (list_revenue (Some 0%Z))
           "Format = 'MATRIX'"); reflexivity.
Defined.

Lemma execute_report_calls (conn : Conn) (id : string)
    (det : option bool) (fl : option (list ReportFilter)) :
  snd (execute_report conn id det fl []) = [Execute id (execute_options det fl)].
Proof.
  unfold execute_report. cbv zeta. now rewrite await_then_pure.
Qed.

Lemma executeAsync_report_calls (conn : Conn) (id : string)
    (det : option bool) (fl : option (list ReportFilter)) :
  snd (executeAsync_report conn id det fl [])
  = [ExecuteAsync id (executeAsync_options det fl)].
Proof.
  unfold executeAsync_report. cbv zeta. now rewrite await_then_pure.
Qed.

Lemma execute_calls (conn : Conn) (args : ManageReportsArgs) (id : string) :
  operation args = "execute" ->
  given (reportId args) = Some id ->
  calls (handleManageReports conn args)
  = [Execute id (execute_options (includeDetails args) (filters args))].
Proof.
  intros Hop Hid. rewrite calls_of_dispatch. unfold dispatch.
  rewrite Hop, Hid. cbn [String.eqb Ascii.eqb Bool.eqb].
  apply execute_report_calls.
Qed.

Lemma executeAsync_calls (conn : Conn) (args : ManageReportsArgs) (id : string) :
  operation args = "executeAsync" ->
  given (reportId args) = Some id ->
  calls (handleManageReports conn args)
  = [ExecuteAsync id (executeAsync_options (includeDetails args) (filters args))].
Proof.
  intros Hop Hid. rewrite calls_of_dispatch. unfold dispatch.
  rewrite Hop, Hid. cbn [String.eqb Ascii.eqb Bool.eqb].
  apply executeAsync_report_calls.
Qed.

(** C9.  The options built by the [executeAsync] branch equal the options
    built by the [execute] branch for every pair of [includeDetails] and
    [filters]: two requests that differ only in the operation hand the same
    object to the connection, one to [execute], the other to
    [executeAsync]. *)
Theorem executeAsync_builds_the_options_of_execute
    (conn : Conn) (sync async : ManageReportsArgs) (id : string) :
  operation sync = "execute" ->
  operation async = "executeAsync" ->
  given (reportId sync) = Some id ->
  reportId async = reportId sync ->
  includeDetails async = includeDetails sync ->
  filters async = filters sync ->
  (forall det fl, executeAsync_options det fl = execute_options det fl)
  /\ exists options,
       calls (handleManageReports conn sync) = [Execute id options]
       /\ calls (handleManageReports conn async) = [ExecuteAsync id options].
Proof.
  intros Hs Ha Hid Hrid Hdet Hfl. split; [reflexivity|].
  exists (execute_options (includeDetails sync) (filters sync)). split.
  - now apply execute_calls.
  - rewrite (executeAsync_calls conn async id Ha) by now rewrite Hrid.
    now rewrite Hdet, Hfl.
Qed.

Definition amount_filter : ReportFilter :=
  {| column := "AMOUNT"; operator := "greaterThan"; value := "10000" |}.

Definition run_with_filter (op : string) : ManageReportsArgs :=
  {| operation := op; reportId := Some "00O000000000001"; instanceId := None;
     includeDetails := Some true; filters := Some [amount_filter];
     queryFilter := None; limit := None |}.

Lemma executeAsync_options_example :
  (forall det fl, executeAsync_options det fl = execute_options det fl)
  /\ exists options,
       calls (handleManageReports silent (run_with_filter "execute"))
       = [Execute "00O000000000001" options]
       /\ calls (handleManageReports silent (run_with_filter "executeAsync"))
          = [ExecuteAsync "00O000000000001" options].
Proof.
  apply (executeAsync_builds_the_options_of_execute silent
           (run_with_filter "execute") (run_with_filter "executeAsync")
           "00O000000000001"); reflexivity.
Defined.




Section SavedReports.

(** The reports saved at the service, and what a call issued on the
    connection does to them: any service at all. *)
Variable store : Type.
Variable effect : call -> store -> store.



End SavedReports.








End HandlerProps.

(* ------------------------------------------------------------------ *)
(** ** The formatter: fallback chains, grand totals, detail rows, groupings *)
(* ------------------------------------------------------------------ *)

Module FormatterProps.
Import JS Reports JSFacts.

(** *** What the formatter is expected to print, stated without faults *)

(** The keys of a value that has keys. *)
Definition own_keys (v : jsval) : list string :=
  match object_keys v with
  | Ret keys => keys
  | Throw _ => []
  end.

(** The label of the [i]-th aggregate: the label of the column-info entry
    under the [i]-th key when that label is truthy, else the key; and
    "Aggregate <i>" when there is no [i]-th key or that key is empty. *)
Definition aggregate_label_of (info : jsval) (i : nat) : string :=
  match nth_error (own_keys info) i with
  | Some k =>
      if String.eqb k "" then "Aggregate " ++ string_of_nat i
      else
        let label := get_opt (prop info k) "label" in
        if truthy label then to_string label else k
  | None => "Aggregate " ++ string_of_nat i
  end.

(** The fallback chain of a value holder: its label when it has one, else
    its value when it has one, else the fallback. *)
Definition resolved (fallback : string) (holder : jsval) : jsval :=
  match nullish (prop holder "label"), nullish (prop holder "value") with
  | false, _ => prop holder "label"
  | true, false => prop holder "value"
  | true, true => JStr fallback
  end.

Definition aggregate_line (indent : string) (info : jsval) (i : nat)
    (agg : jsval) : string :=
  indent ++ aggregate_label_of info i ++ ": " ++ to_string (resolved "N/A" agg).

(** One line per aggregate; [from] is the position of the first. *)
Fixpoint aggregate_lines (indent : string) (info : jsval) (from : nat)
    (aggs : list jsval) : list string :=
  match aggs with
  | [] => []
  | agg :: rest =>
      aggregate_line indent info from agg
      :: aggregate_lines indent info (S from) rest
  end.

(** The header line of a grouping node. *)
Definition header_line (indent : string) (group : jsval) : string :=
  indent ++ to_string (prop group "label") ++ " ("
  ++ to_string (prop group "value") ++ "):".

(** The sub-groupings of a grouping node, and the child nodes the
    renderer walks when they are an array. *)
Definition sub_groupings (group : jsval) : option jsval :=
  match group with
  | JObj ps => assoc "groupings" ps
  | _ => None
  end.

Definition children (group : jsval) : list jsval :=
  match sub_groupings group with
  | Some (JArr cs) => cs
  | _ => []
  end.

(** [node_at groupings k g]: [g] is a grouping node [k] levels below the
    top level of [groupings]. *)
Inductive node_at : jsval -> nat -> jsval -> Prop :=
| node_here (l : list jsval) (g : jsval) :
    In g l -> node_at (JArr l) 0 g
| node_below (l : list jsval) (parent : jsval) (k : nat) (g : jsval) :
    In parent l -> node_at (JArr (children parent)) k g ->
    node_at (JArr l) (S k) g.

Definition spaces (n : nat) : string := repeat_string " " n.

(** One round of the loop of [formatGroupings] at [depth]: the group, then
    its sub-groupings one level deeper. *)
Definition group_round (depth : nat)
    (factMap aggregateInfo columnInfo metadata : jsval) (includeDetails : bool)
    (group : jsval) (lines : list string) : outcome (list string) :=
  lines <- formatGroup (repeat_string "  " (depth + 1)) group factMap
                       aggregateInfo columnInfo metadata includeDetails lines ;;
  with_prop group "groupings"
    (fun sub =>
       if gt0 (get_opt sub "length")
       then formatGroupings sub factMap aggregateInfo columnInfo metadata
                            includeDetails lines (depth + 1)
       else Ret lines)
    (Ret lines).

(** The parts of a result tree the formatter looks up. *)
Definition fact_map (result : jsval) : jsval := prop result "factMap".

Definition grand_bucket (result : jsval) : jsval := prop (fact_map result) "T!T".

Definition aggregate_info (result : jsval) : jsval :=
  or_else (get_opt (prop result "reportExtendedMetadata") "aggregateColumnInfo")
          (JObj []).

Definition column_info (result : jsval) : jsval :=
  or_else (get_opt (prop result "reportExtendedMetadata") "detailColumnInfo")
          (JObj []).

(** A row of the detail table: its cells between bars, each cell resolved
    with the given fallback. *)
Definition table_row (fallback : string) (cells : list jsval) : string :=
  "  | " ++ join_vals " | " (map (resolved fallback) cells) ++ " |".

(** [line] is the table row of [row], whose cells are an array. *)
Definition renders_row (fallback : string) (row : jsval) (line : string) : Prop :=
  exists cells, prop row "dataCells" = JArr cells
                /\ line = table_row fallback cells.

(** *** The aggregate loop *)

Lemma object_keys_own (info : jsval) (keys : list string) :
  object_keys info = Ret keys -> own_keys info = keys /\ nullish info = false.
Proof.
  intros H. unfold own_keys. rewrite H. split; [reflexivity|].
  destruct info; cbn in *; try reflexivity; discriminate.
Qed.

Lemma aggregate_label_pure (info : jsval) (keys : list string) (i : nat) :
  object_keys info = Ret keys ->
  aggregate_label keys info i = Ret (aggregate_label_of info i).
Proof.
  intros H. destruct (object_keys_own _ _ H) as [Hkeys Hinfo].
  unfold aggregate_label, aggregate_label_of. rewrite Hkeys.
  destruct (nth_error keys i) as [k|]; [|reflexivity].
  cbn [truthy]. destruct (String.eqb k ""); cbn [negb]; [reflexivity|].
  unfold get_computed. cbn [to_string]. rewrite (get_defined _ _ Hinfo).
  cbn [bind]. unfold or_else.
  now destruct (truthy (get_opt (prop info k) "label")).
Qed.

Lemma chain_returns (fallback : string) (holder v : jsval) :
  (label <- get holder "label" ;;
   value <- get holder "value" ;;
   Ret (nullish_or label (nullish_or value (JStr fallback)))) = Ret v ->
  nullish holder = false /\ v = resolved fallback holder.
Proof.
  intros H. returns H. injection H as <-.
  apply get_returns in Hx. destruct Hx as [Hn ->].
  apply get_returns in Hx0. destruct Hx0 as [_ ->].
  split; [exact Hn|]. unfold resolved, nullish_or.
  destruct (nullish (prop holder "label")); [|reflexivity].
  now destruct (nullish (prop holder "value")).
Qed.

Lemma aggregate_value_returns (agg v : jsval) :
  aggregate_value agg = Ret v -> v = resolved "N/A" agg.
Proof. intros H. now apply chain_returns in H. Qed.

Lemma cell_value_returns (cell v : jsval) :
  cell_value cell = Ret v -> v = resolved "" cell.
Proof. intros H. now apply chain_returns in H. Qed.

Lemma aggregate_rounds (indent : string) (info : jsval) (keys : list string)
    (done todo : list jsval) (lines out : list string) :
  object_keys info = Ret keys ->
  iter (fun i lines =>
          agg <- get_index (JArr (done ++ todo)) i ;;
          label <- aggregate_label keys info i ;;
          value <- aggregate_value agg ;;
          Ret (push lines (indent ++ label ++ ": " ++ to_string value)))
       (seq (List.length done) (List.length todo)) lines = Ret out ->
  out = (lines ++ aggregate_lines indent info (List.length done) todo)%list.
Proof.
  intros Hkeys. revert done lines.
  induction todo as [|agg todo IH]; intros done lines H.
  - cbn in H. injection H as <-. cbn. now rewrite app_nil_r.
  - cbn [List.length seq iter] in H.
    rewrite get_index_array, nth_middle in H. cbn [bind] in H.
    rewrite (aggregate_label_pure _ _ _ Hkeys) in H. cbn [bind] in H.
    returns H. returns Hx. injection Hx as <-.
    apply aggregate_value_returns in Hx0. subst x0.
    replace (done ++ agg :: todo)%list with ((done ++ [agg]) ++ todo)%list in H
      by now rewrite <- app_assoc.
    replace (S (List.length done)) with (List.length (done ++ [agg])%list) in H
      by (rewrite length_app; cbn; lia).
    apply IH in H. subst out. rewrite length_app. cbn [List.length].
    replace (List.length done + 1) with (S (List.length done)) by lia.
    unfold push. rewrite <- app_assoc. reflexivity.
Qed.

(** The loop over an array of aggregates pushes one line per aggregate. *)
Lemma push_aggregates_array (indent : string) (info : jsval)
    (aggs : list jsval) (lines out : list string) :
  push_aggregates indent (JArr aggs) info lines = Ret out ->
  out = (lines ++ aggregate_lines indent info 0 aggs)%list.
Proof.
  unfold push_aggregates. intros H. returns H.
  apply get_returns in Hx0. destruct Hx0 as [_ ->].
  cbn [prop String.eqb Ascii.eqb Bool.eqb loop_bound to_number] in H.
  rewrite Nat2Z.id in H. unfold for_index in H.
  exact (aggregate_rounds indent info x [] aggs lines out Hx H).
Qed.

(** *** Every part of the formatter only adds lines *)

Ltac added_lines :=
  subst; unfold push; eexists; rewrite <- ?app_assoc; reflexivity.

Lemma push_aggregates_extends (indent : string) (aggregates info : jsval) :
  extends (push_aggregates indent aggregates info).
Proof.
  intros lines out H. unfold push_aggregates in H. returns H.
  unfold for_index in H. revert lines out H. apply extends_iter.
  intros i _ lines out H. returns H. injection H as <-. added_lines.
Qed.

Lemma formatGroup_layout (indent : string)
    (group factMap aggregateInfo columnInfo metadata : jsval)
    (includeDetails : bool) (lines out : list string) :
  formatGroup indent group factMap aggregateInfo columnInfo metadata
              includeDetails lines = Ret out ->
  exists subtotals rows,
    out = (lines ++ [header_line indent group] ++ subtotals ++ rows)%list
    /\ forall aggs,
         get_opt (prop factMap (to_string (prop group "key") ++ "!T"))
                 "aggregates" = JArr aggs ->
         subtotals = aggregate_lines (indent ++ "  ") aggregateInfo 0 aggs.
Proof.
  unfold formatGroup. intros H. returns H.
  apply get_returns in Hx; destruct Hx as [_ ->].
  apply get_returns in Hx0; destruct Hx0 as [_ ->].
  apply get_returns in Hx1; destruct Hx1 as [_ ->].
  apply get_returns in Hx2; destruct Hx2 as [_ ->].
  cbv zeta in *. fold (header_line indent group) in *.
  set (bucket := prop factMap (to_string (prop group "key") ++ "!T")) in *.
  assert (Hsub : exists subtotals,
             x3 = (push lines (header_line indent group) ++ subtotals)%list
             /\ forall aggs, get_opt bucket "aggregates" = JArr aggs ->
                  subtotals = aggregate_lines (indent ++ "  ") aggregateInfo 0 aggs).
  { destruct (gt0 (get_opt (get_opt bucket "aggregates") "length")) eqn:Hlen.
    - destruct (push_aggregates_extends _ _ _ _ _ Hx3) as [subtotals E].
      exists subtotals. split; [exact E|]. intros aggs Haggs.
      rewrite Haggs in Hx3. apply push_aggregates_array in Hx3.
      rewrite Hx3 in E. now apply app_inv_head in E.
    - injection Hx3 as <-. exists []. split; [now rewrite app_nil_r|].
      intros aggs Haggs. rewrite Haggs in Hlen. destruct aggs; [reflexivity|].
      cbn in Hlen. discriminate Hlen. }
  destruct Hsub as [subtotals [-> Hsub]]. exists subtotals.
  assert (Hrows : exists rows,
             out = ((push lines (header_line indent group) ++ subtotals)
                    ++ rows)%list).
  { destruct (includeDetails
              && gt0 (get_opt (get_opt bucket "rows") "length")).
    - returns H.
      assert (E : extends (for_of "groupData.rows" (get_opt bucket "rows")
                 (fun row lines =>
                    dataCells <- get row "dataCells" ;;
                    cells <- method_map "row.dataCells" dataCells (fun cell idx =>
                      colName <- get_index
                        (or_else (get_opt metadata "detailColumns") (JArr [])) idx ;;
                      info <- get_computed columnInfo colName ;;
                      value <- cell_value cell ;;
                      Ret (to_string
                             (or_else (or_else (get_opt info "label") colName)
                                      (JStr ("Col" ++ string_of_nat idx)))
                           ++ ": " ++ to_string value)) ;;
                    Ret (push lines (indent ++ "    " ++ join ", " cells))))).
      { apply extends_for_of. intros row ls o Hrow.
        returns Hrow. injection Hrow as <-. added_lines. }
      destruct (E _ _ H) as [added ->]. added_lines.
    - injection H as <-. exists []. now rewrite app_nil_r. }
  destruct Hrows as [rows ->]. exists rows. split; [|exact Hsub].
  unfold push. now rewrite <- !app_assoc.
Qed.

(** *** The recursion over the groupings *)

Lemma jsval_deep_ind (P : jsval -> Prop) :
  P JUndef -> P JNull -> (forall b, P (JBool b)) -> (forall n, P (JNum n)) ->
  (forall s, P (JStr s)) ->
  (forall l, Forall P l -> P (JArr l)) ->
  (forall ps, Forall (fun kv => P (snd kv)) ps -> P (JObj ps)) ->
  forall v, P v.
Proof.
  intros HU HN HB HZ HS HA HO. fix IH 1. intros [ | | b | n | s | l | ps].
  - exact HU.
  - exact HN.
  - apply HB.
  - apply HZ.
  - apply HS.
  - apply HA.
    exact ((fix go (l : list jsval) : Forall P l :=
              match l with
              | [] => Forall_nil P
              | x :: r => Forall_cons x (IH x) (go r)
              end) l).
  - apply HO.
    exact ((fix go (ps : list (string * jsval))
              : Forall (fun kv => P (snd kv)) ps :=
              match ps with
              | [] => Forall_nil _
              | kv :: r => Forall_cons kv (IH (snd kv)) (go r)
              end) ps).
Qed.

Lemma own_prop_assoc {R : Type} (k : string) (found : jsval -> R) (missing : R)
    (ps : list (string * jsval)) :
  own_prop k found missing ps
  = match assoc k ps with
    | Some x => found x
    | None => missing
    end.
Proof.
  induction ps as [|[k' v] ps IH]; cbn; [reflexivity|].
  now destruct (String.eqb k' k).
Qed.

Lemma with_prop_sub {R : Type} (group : jsval) (found : jsval -> R) (missing : R) :
  with_prop group "groupings" found missing
  = match sub_groupings group with
    | Some sub => found sub
    | None => missing
    end.
Proof.
  destruct group; cbn [with_prop sub_groupings]; try reflexivity.
  apply own_prop_assoc.
Qed.

Lemma assoc_in (k : string) (ps : list (string * jsval)) (v : jsval) :
  assoc k ps = Some v -> exists k', In (k', v) ps.
Proof.
  induction ps as [|[k' x] ps IH]; cbn; [discriminate|].
  destruct (String.eqb k' k).
  - intros H. injection H as ->. exists k'. now left.
  - intros H. destruct (IH H) as [k'' Hin]. exists k''. now right.
Qed.

Lemma formatGroupings_array (l : list jsval)
    (factMap aggregateInfo columnInfo metadata : jsval) (includeDetails : bool)
    (lines : list string) (depth : nat) :
  formatGroupings (JArr l) factMap aggregateInfo columnInfo metadata
                  includeDetails lines depth
  = iter (group_round depth factMap aggregateInfo columnInfo metadata
                      includeDetails) l lines.
Proof. reflexivity. Qed.

Lemma formatGroupings_text (t : string)
    (factMap aggregateInfo columnInfo metadata : jsval) (includeDetails : bool)
    (lines : list string) (depth : nat) :
  formatGroupings (JStr t) factMap aggregateInfo columnInfo metadata
                  includeDetails lines depth
  = iter (fun c => formatGroup (repeat_string "  " (depth + 1))
                     (JStr (String c "")) factMap aggregateInfo columnInfo
                     metadata includeDetails)
         (list_ascii_of_string t) lines.
Proof.
  cbn [formatGroupings for_of]. generalize (list_ascii_of_string t) as cs.
  intros cs. revert lines. induction cs as [|c cs IH]; intros lines.
  - reflexivity.
  - rewrite !iter_cons. cbn [with_prop].
    destruct (formatGroup (repeat_string "  " (depth + 1)) (JStr (String c ""))
                factMap aggregateInfo columnInfo metadata includeDetails lines)
      as [s|e]; cbn [bind]; [apply IH | reflexivity].
Qed.

Lemma formatGroup_extends (indent : string)
    (group factMap aggregateInfo columnInfo metadata : jsval)
    (includeDetails : bool) :
  extends (formatGroup indent group factMap aggregateInfo columnInfo metadata
                       includeDetails).
Proof.
  intros lines out H. apply formatGroup_layout in H.
  destruct H as [subtotals [rows [-> _]]]. now eexists.
Qed.

(** The renderer only adds lines, whatever the groupings are. *)
Lemma formatGroupings_extends (groupings : jsval) :
  forall factMap aggregateInfo columnInfo metadata includeDetails depth,
    extends (fun lines =>
               formatGroupings groupings factMap aggregateInfo columnInfo
                               metadata includeDetails lines depth).
Proof.
  enough (Hdeep :
    (forall factMap aggregateInfo columnInfo metadata includeDetails depth,
       extends (fun lines =>
                  formatGroupings groupings factMap aggregateInfo columnInfo
                                  metadata includeDetails lines depth))
    /\ (forall sub, sub_groupings groupings = Some sub ->
         forall factMap aggregateInfo columnInfo metadata includeDetails depth,
           extends (fun lines =>
                      formatGroupings sub factMap aggregateInfo columnInfo
                                      metadata includeDetails lines depth)))
    by exact (proj1 Hdeep).
  induction groupings as [ | | b | n | t | l IH | ps IH ] using jsval_deep_ind;
    (split; [|try (intros sub Hsub; discriminate Hsub)]);
    try (intros fm ai ci md det depth lines out H; discriminate H).
  - (* text: one round per character, no sub-groupings *)
    intros fm ai ci md det depth lines out H.
    rewrite formatGroupings_text in H. revert lines out H.
    apply extends_iter. intros c _. apply formatGroup_extends.
  - (* an array of groups *)
    intros fm ai ci md det depth lines out H.
    rewrite formatGroupings_array in H. revert lines out H.
    apply extends_iter. intros g Hg lines out H.
    unfold group_round in H. returns H.
    destruct (formatGroup_extends _ _ _ _ _ _ _ _ _ Hx) as [own ->].
    rewrite with_prop_sub in H.
    rewrite Forall_forall in IH. destruct (IH g Hg) as [_ IHsub].
    destruct (sub_groupings g) as [sub|].
    + destruct (gt0 (get_opt sub "length")).
      * destruct (IHsub sub eq_refl _ _ _ _ _ _ _ _ H) as [kids ->]. added_lines.
      * injection H as <-. now eexists.
    + injection H as <-. now eexists.
  - (* the properties of an object *)
    intros sub Hsub. cbn [sub_groupings] in Hsub.
    destruct (assoc_in _ _ _ Hsub) as [k' Hin].
    rewrite Forall_forall in IH. exact (proj1 (IH _ Hin)).
Qed.

(** One round of the loop: the header of the group, its subtotals, its
    rows, and then what the recursion adds for its children. *)
Lemma group_round_layout (depth : nat)
    (factMap aggregateInfo columnInfo metadata : jsval) (includeDetails : bool)
    (group : jsval) (lines out : list string) :
  group_round depth factMap aggregateInfo columnInfo metadata includeDetails
              group lines = Ret out ->
  exists subtotals rows kids,
    let start := (lines ++ [header_line (spaces (2 * (depth + 1))) group]
                  ++ subtotals ++ rows)%list in
    out = (start ++ kids)%list
    /\ (forall aggs,
          get_opt (prop factMap (to_string (prop group "key") ++ "!T"))
                  "aggregates" = JArr aggs ->
          subtotals
          = aggregate_lines (spaces (2 * (depth + 2))) aggregateInfo 0 aggs)
    /\ (children group <> [] ->
        formatGroupings (JArr (children group)) factMap aggregateInfo
                        columnInfo metadata includeDetails start (depth + 1)
        = Ret (start ++ kids)%list).
Proof.
  unfold group_round. intros H. returns H.
  apply formatGroup_layout in Hx. destruct Hx as [subtotals [rows [-> Hsub]]].
  rewrite repeat_two_spaces in *. fold (spaces (2 * (depth + 1))) in *.
  exists subtotals, rows.
  assert (Hdeeper : (spaces (2 * (depth + 1)) ++ "  ")%string
                    = spaces (2 * (depth + 2))).
  { unfold spaces. replace (2 * (depth + 2)) with (2 * (depth + 1) + 2) by lia.
    generalize (2 * (depth + 1)) as n. intros n.
    induction n as [|n IH]; cbn; [reflexivity | now rewrite IH]. }
  rewrite Hdeeper in Hsub.
  rewrite with_prop_sub in H. unfold children.
  destruct (sub_groupings group) as [sub|].
  - destruct (gt0 (get_opt sub "length")) eqn:Hlen.
    + destruct (formatGroupings_extends _ _ _ _ _ _ _ _ _ H) as [kids ->].
      exists kids. cbv zeta. split; [reflexivity|]. split; [exact Hsub|].
      intros Hch. destruct sub; try (now elim Hch). exact H.
    + injection H as <-. exists []. cbv zeta. rewrite app_nil_r.
      split; [reflexivity|]. split; [exact Hsub|].
      intros Hch. destruct sub as [ | | | | | [|c cs] | ]; try (now elim Hch).
  - injection H as <-. exists []. cbv zeta. rewrite app_nil_r.
    split; [reflexivity|]. split; [exact Hsub|]. intros Hch. now elim Hch.
Qed.

Lemma rounds_extend (depth : nat)
    (factMap aggregateInfo columnInfo metadata : jsval) (includeDetails : bool)
    (l : list jsval) (lines out : list string) :
  iter (group_round depth factMap aggregateInfo columnInfo metadata
                    includeDetails) l lines = Ret out ->
  exists added, out = (lines ++ added)%list.
Proof.
  apply extends_iter. intros g _ ls o Hg.
  apply group_round_layout in Hg. cbv zeta in Hg.
  destruct Hg as [s [r [k [-> _]]]]. added_lines.
Qed.

(** What a run over a non-empty array adds begins with the header of its
    first group. *)
Lemma first_header (c : jsval) (cs : list jsval)
    (factMap aggregateInfo columnInfo metadata : jsval) (includeDetails : bool)
    (start kids : list string) (depth : nat) :
  formatGroupings (JArr (c :: cs)) factMap aggregateInfo columnInfo metadata
                  includeDetails start depth = Ret (start ++ kids)%list ->
  exists rest, kids = header_line (spaces (2 * (depth + 1))) c :: rest.
Proof.
  rewrite formatGroupings_array, iter_cons. intros H. returns H.
  apply group_round_layout in Hx. cbv zeta in Hx.
  destruct Hx as [subtotals [rows [more [-> _]]]].
  destruct (rounds_extend _ _ _ _ _ _ _ _ _ H) as [after E].
  rewrite <- !app_assoc in E.
  apply app_inv_head in E. subst kids. eexists. reflexivity.
Qed.

(** C1.  In the rendering of a grouping tree started at depth [d], a node
    [k] levels down has its header "<label> (<value>):" behind exactly
    [2 * (d + k + 1)] spaces; its subtotals, one line per aggregate of the
    bucket "<key>!T", follow the header at once, behind two more spaces;
    then come its rows, and only then what the recursion adds for its
    children, which begins with the first child's header, behind
    [2 * (d + k + 2)] spaces: two more than the node's own. *)
Theorem grouping_node_layout
    (groupings factMap aggregateInfo columnInfo metadata : jsval)
    (includeDetails : bool) (lines out : list string) (d k : nat) (g : jsval) :
  formatGroupings groupings factMap aggregateInfo columnInfo metadata
                  includeDetails lines d = Ret out ->
  node_at groupings k g ->
  exists before subtotals rows kids after,
    out = (lines ++ before
           ++ [header_line (spaces (2 * (d + k + 1))) g]
           ++ subtotals ++ rows ++ kids ++ after)%list
    /\ (forall aggs,
          get_opt (prop factMap (to_string (prop g "key") ++ "!T"))
                  "aggregates" = JArr aggs ->
          subtotals
          = aggregate_lines (spaces (2 * (d + k + 2))) aggregateInfo 0 aggs)
    /\ (forall c cs,
          children g = c :: cs ->
          exists rest,
            kids = header_line (spaces (2 * (d + k + 2))) c :: rest)
    /\ String.length (spaces (2 * (d + k + 1)))
       < String.length (spaces (2 * (d + k + 2))).
Proof.
  intros Hrun Hnode. revert lines out d Hrun.
  induction Hnode as [l g Hin | l parent k g Hin Hnode IH]; intros lines out d Hrun;
    rewrite formatGroupings_array in Hrun;
    destruct (in_split _ _ Hin) as [l1 [l2 ->]];
    rewrite iter_app in Hrun; returns Hrun;
    rewrite iter_cons in Hrun; returns Hrun;
    destruct (rounds_extend _ _ _ _ _ _ _ _ _ Hx) as [before ->];
    apply group_round_layout in Hx0; cbv zeta in Hx0;
    destruct Hx0 as [subtotals [rows [kids [-> [Hsub Hkids]]]]];
    destruct (rounds_extend _ _ _ _ _ _ _ _ _ Hrun) as [after ->].
  - (* the node is a group of this level *)
    exists before, subtotals, rows, kids, after.
    replace (d + 0 + 1) with (d + 1) by lia.
    replace (d + 0 + 2) with (d + 2) by lia.
    split; [now rewrite <- !app_assoc|]. split; [exact Hsub|]. split.
    + intros c cs Hch. rewrite Hch in Hkids.
      specialize (Hkids ltac:(discriminate)).
      apply first_header in Hkids.
      now replace (d + 1 + 1) with (d + 2) in Hkids by lia.
    + unfold spaces. rewrite !length_spaces. lia.
  - (* the node lies below a group of this level *)
    destruct (children parent) as [|c cs] eqn:Hch.
    { inversion Hnode as [l' g' Hnil | l' p' k' g' Hnil]; subst; destruct Hnil. }
    specialize (Hkids ltac:(discriminate)).
    destruct (IH _ _ _ Hkids) as [before' [sub' [rows' [kids' [after' [E [Hs [Hk Hlen]]]]]]]].
    apply app_inv_head in E. subst kids.
    exists (before ++ [header_line (spaces (2 * (d + 1))) parent]
            ++ subtotals ++ rows ++ before')%list,
           sub', rows', kids', (after' ++ after)%list.
    replace (d + S k + 1) with (d + 1 + k + 1) by lia.
    replace (d + S k + 2) with (d + 1 + k + 2) by lia.
    split; [now rewrite <- !app_assoc|]. auto.
Qed.

(** A region with one sub-region, each with a subtotal. *)
Definition california : jsval :=
  JObj [("label", JStr "CA"); ("value", JStr "ca"); ("key", JStr "0_0");
        ("groupings", JArr [])].

Definition west : jsval :=
  JObj [("label", JStr "West"); ("value", JStr "W"); ("key", JStr "0");
        ("groupings", JArr [california])].

Definition subtotals_by_region : jsval :=
  JObj [("0!T", JObj [("aggregates", JArr [JObj [("value", JNum 1)]])]);
        ("0_0!T", JObj [("aggregates", JArr [JObj [("value", JNum 2)]])])].

Lemma grouping_node_example :
  formatGroupings (JArr [west]) subtotals_by_region (JObj []) (JObj []) JUndef
                  false [] 0
  = Ret ["  West (W):"; "    Aggregate 0: 1";
         "    CA (ca):"; "      Aggregate 0: 2"]
  /\ exists before subtotals rows kids after,
       ["  West (W):"; "    Aggregate 0: 1";
        "    CA (ca):"; "      Aggregate 0: 2"]
       = ([] ++ before
          ++ [header_line (spaces (2 * (0 + 1 + 1))) california]
          ++ subtotals ++ rows ++ kids ++ after)%list
       /\ (forall aggs,
             get_opt (prop subtotals_by_region
                           (to_string (prop california "key") ++ "!T"))
                     "aggregates" = JArr aggs ->
             subtotals
             = aggregate_lines (spaces (2 * (0 + 1 + 2))) (JObj []) 0 aggs)
       /\ (forall c cs,
             children california = c :: cs ->
             exists rest,
               kids = header_line (spaces (2 * (0 + 1 + 2))) c :: rest)
       /\ String.length (spaces (2 * (0 + 1 + 1)))
          < String.length (spaces (2 * (0 + 1 + 2))).
Proof.
  split; [reflexivity|].
  apply (grouping_node_layout (JArr [west]) subtotals_by_region (JObj [])
           (JObj []) JUndef false [] _ 0 1 california).
  - reflexivity.
  - apply (node_below [west] west 0 california); [now left|].
    apply node_here. now left.
Defined.

(** *** The sections of [formatReportResults] *)

Lemma grand_totals_extends (factMap aggregateInfo : jsval) :
  extends (grand_totals factMap aggregateInfo).
Proof.
  intros lines out H. unfold grand_totals in H. returns H.
  destruct (truthy x); [|injection H as <-; now exists []; rewrite app_nil_r].
  returns H.
  destruct (gt0 (get_opt x0 "length"));
    [|injection H as <-; now exists []; rewrite app_nil_r].
  destruct (push_aggregates_extends _ _ _ _ _ H) as [added ->]. added_lines.
Qed.

(** The grand totals of a bucket whose aggregates are a non-empty array. *)
Lemma grand_totals_array (factMap aggregateInfo : jsval)
    (agg : jsval) (aggs : list jsval) (lines out : list string) :
  prop (prop factMap "T!T") "aggregates" = JArr (agg :: aggs) ->
  grand_totals factMap aggregateInfo lines = Ret out ->
  out = (lines ++ [""; "Grand Totals:"]
         ++ aggregate_lines "  " aggregateInfo 0 (agg :: aggs))%list.
Proof.
  intros Haggs H. unfold grand_totals in H. returns H.
  apply get_returns in Hx. destruct Hx as [_ ->].
  destruct (truthy (prop factMap "T!T")) eqn:Hbucket.
  - returns H. apply get_returns in Hx. destruct Hx as [_ ->].
    rewrite Haggs in H.
    cbn [get_opt nullish prop String.eqb Ascii.eqb Bool.eqb gt0 to_number
         List.length] in H.
    apply push_aggregates_array in H. subst out. unfold push.
    now rewrite <- !app_assoc.
  - destruct (prop factMap "T!T"); cbn in Haggs; try discriminate Haggs;
      cbn in Hbucket; discriminate Hbucket.
Qed.

Lemma cells_resolved (fallback : string) (cells : list jsval) (i : nat)
    (values : list jsval) :
  mapi (fun cell _ =>
          label <- get cell "label" ;;
          value <- get cell "value" ;;
          Ret (nullish_or label (nullish_or value (JStr fallback))))
       cells i = Ret values ->
  values = map (resolved fallback) cells.
Proof.
  intros H. apply mapi_returns in H.
  induction H as [|cell v cells values [j Hv] _ IH]; [reflexivity|].
  apply chain_returns in Hv. destruct Hv as [_ ->]. cbn [map]. now rewrite IH.
Qed.

(** The detail rows: a blank line, the count, the column headers if any,
    and one table row per row of the bucket. *)
Lemma detail_rows_layout (factMap columnInfo metadata : jsval)
    (lines out : list string) :
  detail_rows factMap columnInfo metadata true lines = Ret out ->
  truthy (get_opt (prop factMap "T!T") "rows") = true ->
  exists rows headers table,
    get_opt (prop factMap "T!T") "rows" = JArr rows
    /\ out = (lines ++ headers ++ table)%list
    /\ Forall2 (renders_row "") rows table.
Proof.
  unfold detail_rows. intros H Hrows. returns H.
  apply get_returns in Hx. destruct Hx as [_ ->].
  rewrite Hrows in H. cbn [andb] in H. cbv zeta in H. returns H.
  destruct (get_opt (prop factMap "T!T") "rows") as [ | | | | t | rows | ];
    try discriminate H.
  - (* text: its first character has no cells *)
    cbn [for_of] in H. destruct t as [|c t]; [discriminate Hrows|].
    cbn in H. discriminate H.
  - exists rows. cbn [for_of] in H.
    match type of H with iter _ _ ?start = _ =>
      assert (Hstart : exists headers, start = (lines ++ headers)%list)
        by (destruct (0 <? List.length x0)%nat; added_lines);
      destruct Hstart as [headers Hstart]; rewrite Hstart in H
    end.
    exists headers.
    match type of H with iter ?body _ _ = _ =>
      destruct (iter_pushes (renders_row "") body) with (l := rows)
        (s := (lines ++ headers)%list) (s' := out) as [table [Htable ->]];
        [|exact H|]
    end.
    + intros row s s' Hrow. returns Hrow. injection Hrow as <-.
      apply get_returns in Hx1. destruct Hx1 as [_ ->].
      apply method_map_returns in Hx2. destruct Hx2 as [cells [Hcells Hmap]].
      eexists. split; [|reflexivity]. exists cells. split; [exact Hcells|].
      unfold cell_value in Hmap. apply cells_resolved in Hmap. now subst.
    + exists table. split; [reflexivity|]. split; [|exact Htable].
      now rewrite <- app_assoc.
Qed.

Lemma detail_rows_extends (factMap columnInfo metadata : jsval)
    (includeDetails : bool) :
  extends (detail_rows factMap columnInfo metadata includeDetails).
Proof.
  intros lines out H.
  destruct includeDetails;
    [destruct (truthy (get_opt (prop factMap "T!T") "rows")) eqn:Hrows|].
  - destruct (detail_rows_layout _ _ _ _ _ H Hrows)
      as [rows [headers [table [_ [-> _]]]]]. now eexists.
  - unfold detail_rows in H. returns H.
    apply get_returns in Hx. destruct Hx as [_ ->].
    rewrite Hrows in H. injection H as <-. exists []. now rewrite app_nil_r.
  - unfold detail_rows in H. returns H. cbn [andb] in H.
    injection H as <-. exists []. now rewrite app_nil_r.
Qed.

(** A tree with a fact map is rendered in sections: what precedes the
    grand totals, the grand totals, the detail rows, the grouped results. *)
Lemma sections (result : jsval) (includeDetails : bool) (lines : list string) :
  formatReportResults_lines result includeDetails = Ret lines ->
  truthy (fact_map result) = true ->
  exists head totals details grouped,
    lines = (head ++ totals ++ details ++ grouped)%list
    /\ grand_totals (fact_map result) (aggregate_info result) head
       = Ret (head ++ totals)%list
    /\ detail_rows (fact_map result) (column_info result)
                   (prop result "reportMetadata") includeDetails
                   (head ++ totals)%list
       = Ret (head ++ totals ++ details)%list.
Proof.
  unfold formatReportResults_lines, fact_map, aggregate_info, column_info.
  intros H Hfm. cbv zeta in H. returns H.
  apply get_returns in Hx. destruct Hx as [_ ->].
  apply get_returns in Hx1. destruct Hx1 as [_ ->].
  apply get_returns in Hx2. destruct Hx2 as [_ ->].
  rewrite Hfm in H. cbn [negb] in H. returns H.
  apply get_returns in Hx. destruct Hx as [_ ->].
  apply get_returns in Hx1. destruct Hx1 as [_ ->].
  match type of Hx4 with grand_totals _ _ ?h = _ => set (head := h) in * end.
  destruct (grand_totals_extends _ _ _ _ Hx4) as [totals ->].
  destruct (detail_rows_extends _ _ _ _ _ _ Hx5) as [details ->].
  assert (Hg : exists grouped,
             lines = (((head ++ totals) ++ details) ++ grouped)%list).
  { destruct (gt0 x2).
    - destruct (formatGroupings_extends _ _ _ _ _ _ _ _ _ H) as [grouped ->].
      added_lines.
    - injection H as <-. exists []. now rewrite app_nil_r. }
  destruct Hg as [grouped ->]. exists head, totals, details, grouped.
  split; [now rewrite <- !app_assoc|]. split; [exact Hx4|].
  rewrite Hx5. now rewrite <- app_assoc.
Qed.

Lemma bucket_has_fact_map (result : jsval) (k : string) :
  nullish (get_opt (grand_bucket result) k) = false ->
  truthy (fact_map result) = true.
Proof.
  unfold grand_bucket. destruct (fact_map result) as [ | | | | t | l | ps];
    cbn; try discriminate; reflexivity.
Qed.

(** *** Grand totals *)

(** C2, as the code has it.  When the formatter returns and the bucket
    "T!T" holds a non-empty array of aggregates, the lines contain a blank
    line, "Grand Totals:" and then one line "  <label>: <value>" per
    aggregate, in order.  The label of the i-th line is the truthy label of
    the column-info entry under the i-th key, else that key, and
    "Aggregate <i>" when there is no i-th key or the i-th key is empty; the
    value is the aggregate's label if present, else its value, else
    "N/A". *)
Theorem grand_totals_one_line_per_aggregate
    (result : jsval) (includeDetails : bool) (lines : list string)
    (agg : jsval) (aggs : list jsval) :
  formatReportResults_lines result includeDetails = Ret lines ->
  prop (grand_bucket result) "aggregates" = JArr (agg :: aggs) ->
  exists before after,
    lines = (before ++ [""; "Grand Totals:"]
             ++ aggregate_lines "  " (aggregate_info result) 0 (agg :: aggs)
             ++ after)%list.
Proof.
  intros Hrun Haggs.
  assert (Hfm : truthy (fact_map result) = true).
  { apply (bucket_has_fact_map result "aggregates"). unfold get_opt.
    destruct (nullish (grand_bucket result)) eqn:E.
    - destruct (grand_bucket result); cbn in *; discriminate.
    - now rewrite Haggs. }
  destruct (sections _ _ _ Hrun Hfm) as [head [totals [details [grouped [-> [Ht _]]]]]].
  apply (grand_totals_array _ _ agg aggs) in Ht; [|exact Haggs].
  apply app_inv_head in Ht. subst totals.
  exists head, (details ++ grouped)%list. now rewrite <- !app_assoc.
Qed.

(** The tree of the specification's example: one aggregate of value 42 and
    no aggregate column info. *)
Definition one_total : jsval :=
  JObj [("factMap",
         JObj [("T!T", JObj [("aggregates", JArr [JObj [("value", JNum 42)]])])])].

Lemma grand_totals_example :
  formatReportResults one_total false
  = Ret (join nl [""; "Grand Totals:"; "  Aggregate 0: 42"])
  /\ includes (join nl [""; "Grand Totals:"; "  Aggregate 0: 42"])
              "Aggregate 0: 42" = true
  /\ exists before after,
       [""; "Grand Totals:"; "  Aggregate 0: 42"]
       = (before ++ [""; "Grand Totals:"]
          ++ aggregate_lines "  " (aggregate_info one_total) 0
               [JObj [("value", JNum 42)]]
          ++ after)%list.
Proof.
  split; [reflexivity|]. split; [reflexivity|].
  apply (grand_totals_one_line_per_aggregate one_total false
           [""; "Grand Totals:"; "  Aggregate 0: 42"]
           (JObj [("value", JNum 42)]) []); reflexivity.
Defined.

(** The label as the claim words it: the entry's label under the i-th key,
    else that key, and "Aggregate <i>" only when there is no i-th key. *)
Definition claimed_aggregate_label (info : jsval) (i : nat) : string :=
  match nth_error (own_keys info) i with
  | Some k =>
      let label := get_opt (prop info k) "label" in
      if truthy label then to_string label else k
  | None => "Aggregate " ++ string_of_nat i
  end.

(** An aggregate column registered under the empty key. *)
Definition empty_key_total : jsval :=
  JObj [("reportExtendedMetadata",
         JObj [("aggregateColumnInfo",
                JObj [("", JObj [("label", JStr "Sum")])])]);
        ("factMap",
         JObj [("T!T", JObj [("aggregates", JArr [JObj [("value", JNum 42)]])])])].

(** C2, counterexample.  The column info has a first key, the empty text,
    whose entry is labelled "Sum"; the claim makes the line "  Sum: 42",
    the formatter prints "  Aggregate 0: 42". *)
Lemma empty_key_is_taken_for_no_key :
  formatReportResults_lines empty_key_total false
  = Ret [""; "Grand Totals:"; "  Aggregate 0: 42"]
  /\ nth_error (own_keys (aggregate_info empty_key_total)) 0 = Some ""
  /\ claimed_aggregate_label (aggregate_info empty_key_total) 0 = "Sum"
  /\ aggregate_label_of (aggregate_info empty_key_total) 0 = "Aggregate 0".
Proof. repeat split. Qed.

(** *** Detail rows *)

(** C4, as the code has it.  With [includeDetails] true, when the
    formatter returns and the bucket "T!T" carries rows, the rows are an
    array and the lines contain one table row per row, in order; every cell
    of a table row is the cell's label if present, else its value, else the
    empty text. *)
Theorem detail_cells_fall_back_to_empty_text
    (result : jsval) (lines : list string) :
  formatReportResults_lines result true = Ret lines ->
  truthy (get_opt (grand_bucket result) "rows") = true ->
  exists rows before table after,
    get_opt (grand_bucket result) "rows" = JArr rows
    /\ lines = (before ++ table ++ after)%list
    /\ Forall2 (renders_row "") rows table.
Proof.
  intros Hrun Hrows.
  assert (Hfm : truthy (fact_map result) = true).
  { apply (bucket_has_fact_map result "rows").
    now apply truthy_not_nullish. }
  destruct (sections _ _ _ Hrun Hfm) as [head [totals [details [grouped [-> [_ Hd]]]]]].
  apply detail_rows_layout in Hd; [|exact Hrows].
  destruct Hd as [rows [headers [table [Hr [E Htable]]]]].
  rewrite <- app_assoc in E. apply app_inv_head in E.
  apply app_inv_head in E. subst details.
  exists rows, (head ++ totals ++ headers)%list, table, grouped.
  split; [exact Hr|]. split; [now rewrite <- !app_assoc | exact Htable].
Qed.

(** One detail row with three cells: a label and a value, a value only,
    neither. *)
Definition one_row : jsval :=
  JObj [("factMap",
         JObj [("T!T",
                JObj [("rows",
                       JArr [JObj [("dataCells",
                                    JArr [JObj [("label", JStr "Acme");
                                                ("value", JStr "001")];
                                          JObj [("value", JNum 5)];
                                          JObj []])]])])])].

Lemma detail_cells_example :
  formatReportResults_lines one_row true
  = Ret [""; "Detail Rows (1):"; "  | Acme | 5 |  |"]
  /\ exists rows before table after,
       get_opt (grand_bucket one_row) "rows" = JArr rows
       /\ [""; "Detail Rows (1):"; "  | Acme | 5 |  |"]
          = (before ++ table ++ after)%list
       /\ Forall2 (renders_row "") rows table.
Proof.
  split; [reflexivity|].
  apply (detail_cells_fall_back_to_empty_text one_row
           [""; "Detail Rows (1):"; "  | Acme | 5 |  |"]); reflexivity.
Defined.

(** C4, counterexample.  A cell with neither label nor value is printed as
    the empty text; the claim makes it "N/A". *)
Lemma empty_cell_is_not_NA :
  formatReportResults_lines one_row true
  = Ret [""; "Detail Rows (1):"; "  | Acme | 5 |  |"]
  /\ table_row "N/A" [JObj [("label", JStr "Acme"); ("value", JStr "001")];
                      JObj [("value", JNum 5)]; JObj []]
     = "  | Acme | 5 | N/A |"
  /\ includes "  | Acme | 5 |  |" "N/A" = false.
Proof. repeat split. Qed.

(** *** Faults and the early exit *)

(** A detail row without cells. *)
Definition row_without_cells : jsval :=
  JObj [("factMap", JObj [("T!T", JObj [("rows", JArr [JObj []])])])].

(** C8, counterexample.  On a tree whose only detail row has no
    [dataCells], with [includeDetails] true, the formatter raises. *)
Lemma formatter_raises_on_row_without_cells :
  formatReportResults row_without_cells true
  = Throw (TypeError "Cannot read properties of undefined (reading 'map')").
Proof. reflexivity. Qed.

(** **** Where the embedding is exact *)

(** The largest integer the code's numbers hold without rounding. *)
Definition safe_integer (n : Z) : bool := (Z.abs n <=? 9007199254740991)%Z.

(** The values [to_string] prints exactly as the engine does: anything but
    a number that is not a safe integer and an object with a [toString]
    property of its own (on which the engine raises), at any depth of an
    array. *)
Fixpoint exact_text (v : jsval) : bool :=
  match v with
  | JUndef | JNull | JBool _ | JStr _ => true
  | JNum n => safe_integer n
  | JArr l =>
      (fix all (l : list jsval) : bool :=
         match l with
         | [] => true
         | x :: rest => exact_text x && all rest
         end) l
  | JObj ps =>
      match assoc "toString" ps with
      | Some _ => false
      | None => true
      end
  end.

(** The values whose [length] the code compares with a number exactly as
    the engine does: anything but an object whose [length] is text or a
    container, which the engine converts to a number first. *)
Definition plain_length (v : jsval) : bool :=
  match get_opt v "length" with
  | JStr _ | JArr _ | JObj _ => false
  | _ => true
  end.

(** **** The summary of a report *)

(** A filter the summary can list: an object, or any value but [null] and
    [undefined], whose column, operator and value print exactly. *)
Definition listed_filter (filter : jsval) : bool :=
  negb (nullish filter)
  && exact_text (prop filter "column")
  && exact_text (prop filter "operator")
  && exact_text (prop filter "value").

Definition active_filter_line (filter : jsval) : string :=
  "  - " ++ to_string (prop filter "column") ++ " "
  ++ to_string (prop filter "operator") ++ " "
  ++ to_string (prop filter "value").

Definition summary_head (metadata : jsval) : list string :=
  [ "Report: " ++ to_string (prop metadata "name");
    "Format: " ++ to_string (prop metadata "reportFormat") ].

Definition active_filters_title (filters : list jsval) : string :=
  "Active Filters: " ++ to_string (JNum (Z.of_nat (List.length filters))).

Lemma iter_pushes_where {A : Type} (P : A -> bool) (g : A -> string)
    (body : A -> list string -> outcome (list string)) (l : list A)
    (lines : list string) :
  (forall x s, P x = true -> body x s = Ret (push s (g x))) ->
  forallb P l = true ->
  iter body l lines = Ret (lines ++ map g l)%list.
Proof.
  intros Hbody. revert lines. induction l as [|x l IH]; intros lines Hall.
  - cbn. now rewrite app_nil_r.
  - cbn [forallb] in Hall. apply andb_prop in Hall. destruct Hall as [Hx Hl].
    rewrite iter_cons, (Hbody _ _ Hx). cbn [bind]. rewrite (IH _ Hl).
    unfold push. now rewrite <- app_assoc.
Qed.

(** C8, as the code has it.  On a tree (not [null] or [undefined]) that
    has no fact map, the formatter returns once the metadata summary is
    rendered, with "No data returned." as its last line and nothing after
    it.  The text is exactly "No data returned." when the tree has no
    report metadata.  With metadata whose name and format print exactly,
    the lines are the name, the format, a blank line and "No data
    returned." when the metadata lists no filter; and when its filters are
    an array of filters the summary can list, the lines are the name, the
    format, the number of filters, one line per filter in order, a blank
    line and "No data returned.". *)
Theorem no_fact_map_is_an_early_exit (result : jsval) (includeDetails : bool) :
  nullish result = false ->
  truthy (fact_map result) = false ->
  let metadata := prop result "reportMetadata" in
  let reportFilters := prop metadata "reportFilters" in
  (truthy metadata = false ->
   formatReportResults result includeDetails = Ret "No data returned.")
  /\ (truthy metadata = true ->
      exact_text (prop metadata "name") = true ->
      exact_text (prop metadata "reportFormat") = true ->
      (plain_length reportFilters = true ->
       gt0 (get_opt reportFilters "length") = false ->
       formatReportResults_lines result includeDetails
       = Ret (summary_head metadata ++ [""; "No data returned."])%list)
      /\ (forall filter filters,
            reportFilters = JArr (filter :: filters) ->
            forallb listed_filter (filter :: filters) = true ->
            formatReportResults_lines result includeDetails
            = Ret (summary_head metadata
                   ++ active_filters_title (filter :: filters)
                      :: map active_filter_line (filter :: filters)
                   ++ [""; "No data returned."])%list)).
Proof.
  intros Hres Hfm. cbv zeta.
  assert (Hsummary : forall summary,
    metadata_summary (prop result "reportMetadata") [] = Ret summary ->
    formatReportResults_lines result includeDetails
    = Ret (summary ++ ["No data returned."])%list).
  { intros summary Hs. unfold formatReportResults_lines, fact_map in *.
    rewrite !(get_defined _ _ Hres). cbn [bind]. rewrite Hs. cbn [bind].
    rewrite Hfm. reflexivity. }
  split.
  - intros Hmd. unfold formatReportResults.
    rewrite (Hsummary []); [reflexivity|].
    unfold metadata_summary. now rewrite Hmd.
  - intros Hmd _ _. split.
    + intros _ Hnone.
      rewrite (Hsummary (summary_head (prop result "reportMetadata") ++ [""])%list).
      { now rewrite <- app_assoc. }
      unfold metadata_summary. rewrite Hmd.
      rewrite !(get_defined _ _ (truthy_not_nullish _ Hmd)). cbn [bind].
      rewrite Hnone. reflexivity.
    + intros filter filters Hfilters Hlisted.
      rewrite (Hsummary (summary_head (prop result "reportMetadata")
                         ++ active_filters_title (filter :: filters)
                            :: map active_filter_line (filter :: filters)
                         ++ [""])%list).
      { rewrite <- app_assoc, <- app_comm_cons, <- app_assoc. reflexivity. }
      unfold metadata_summary. rewrite Hmd.
      rewrite !(get_defined _ _ (truthy_not_nullish _ Hmd)). cbn [bind].
      rewrite Hfilters.
      cbn [get_opt nullish prop String.eqb Ascii.eqb Bool.eqb gt0 to_number].
      change (0 <? Z.of_nat (List.length (filter :: filters)))%Z with true.
      cbv iota. unfold get at 1.
      cbn [nullish prop String.eqb Ascii.eqb Bool.eqb bind for_of].
      rewrite (iter_pushes_where listed_filter active_filter_line)
        by (try exact Hlisted;
            intros x s Hx; unfold listed_filter in Hx;
            apply andb_prop in Hx; destruct Hx as [Hx _];
            apply andb_prop in Hx; destruct Hx as [Hx _];
            apply andb_prop in Hx; destruct Hx as [Hx _];
            apply negb_true_iff in Hx;
            rewrite !(get_defined _ _ Hx); reflexivity).
      cbn [bind]. unfold push, summary_head, active_filters_title.
      cbn [app]. rewrite <- !app_assoc. reflexivity.
Qed.

(** A report that was run and returned nothing. *)
Definition no_data : jsval :=
  JObj [("reportMetadata",
         JObj [("name", JStr "Pipeline"); ("reportFormat", JStr "TABULAR")])].

(** The same report, run with one filter. *)
Definition no_data_filtered : jsval :=
  JObj [("reportMetadata",
         JObj [("name", JStr "Pipeline"); ("reportFormat", JStr "TABULAR");
               ("reportFilters",
                JArr [JObj [("column", JStr "AMOUNT");
                            ("operator", JStr "greaterThan");
                            ("value", JStr "10000")]])])].

Lemma no_fact_map_example :
  formatReportResults (JObj []) true = Ret "No data returned."
  /\ formatReportResults_lines no_data false
     = Ret ["Report: Pipeline"; "Format: TABULAR"; ""; "No data returned."]
  /\ formatReportResults_lines no_data_filtered false
     = Ret ["Report: Pipeline"; "Format: TABULAR"; "Active Filters: 1";
            "  - AMOUNT greaterThan 10000"; ""; "No data returned."].
Proof.
  split; [|split].
  - apply (no_fact_map_is_an_early_exit (JObj []) true); reflexivity.
  - apply (proj2 (no_fact_map_is_an_early_exit no_data false eq_refl eq_refl)
             eq_refl eq_refl eq_refl); reflexivity.
  - exact (proj2 (proj2 (no_fact_map_is_an_early_exit no_data_filtered false
                           eq_refl eq_refl)
                    eq_refl eq_refl eq_refl)
             _ _ eq_refl eq_refl).
Defined.

End FormatterProps.

(* ------------------------------------------------------------------ *)
(** ** The dispatcher: routing, results and the remaining branches *)
(* ------------------------------------------------------------------ *)

Module DispatchProps.
Import JS Reports Handler JSFacts HandlerProps.

(** The six operations of the [switch]. *)
Definition known_operations : list string := "list" :: report_operations.

(** The tool result, read off what the [switch] gave. *)
Lemma response_of_dispatch (conn : Conn) (args : ManageReportsArgs)
    (m : outcome Response) (log : list call) :
  dispatch conn args [] = (m, log) ->
  handleManageReports conn args
  = {| response := match m with
                   | Ret r => r
                   | Throw e =>
                       failed ("Error in report " ++ operation args ++ ": "
                               ++ enhancedError (errorMessage e))
                   end;
       calls := log |}.
Proof.
  intros H. unfold handleManageReports. rewrite H. now destruct m.
Qed.

(** What each branch awaits and what it computes from the answer. *)
Lemma dispatch_list_recent (conn : Conn) (args : ManageReportsArgs) :
  operation args = "list" ->
  given (queryFilter args) = None ->
  exists k, dispatch conn args [] = (bind (conn RecentReports) k, [RecentReports]).
Proof.
  intros Hop Hq. unfold dispatch. rewrite Hop, Hq.
  cbn [String.eqb Ascii.eqb Bool.eqb]. unfold list_recent.
  rewrite await_then_pure. now eexists.
Qed.

Lemma dispatch_describe (conn : Conn) (args : ManageReportsArgs) (id : string) :
  operation args = "describe" ->
  given (reportId args) = Some id ->
  exists k, dispatch conn args [] = (bind (conn (Describe id)) k, [Describe id]).
Proof.
  intros Hop Hid. unfold dispatch. rewrite Hop, Hid.
  cbn [String.eqb Ascii.eqb Bool.eqb]. unfold describe_report.
  rewrite await_then_pure. now eexists.
Qed.

Lemma dispatch_execute (conn : Conn) (args : ManageReportsArgs) (id : string) :
  operation args = "execute" ->
  given (reportId args) = Some id ->
  dispatch conn args []
  = (bind (conn (Execute id (execute_options (includeDetails args) (filters args))))
          (fun result =>
             formatted <- formatReportResults result (flag (includeDetails args)) ;;
             Ret (ok formatted)),
     [Execute id (execute_options (includeDetails args) (filters args))]).
Proof.
  intros Hop Hid. unfold dispatch. rewrite Hop, Hid.
  cbn [String.eqb Ascii.eqb Bool.eqb]. unfold execute_report. cbv zeta.
  now rewrite await_then_pure.
Qed.

Lemma dispatch_getInstances (conn : Conn) (args : ManageReportsArgs) (id : string) :
  operation args = "getInstances" ->
  given (reportId args) = Some id ->
  exists k,
    dispatch conn args [] = (bind (conn (Instances id)) k, [Instances id])
    /\ forall instances,
         negb (truthy instances) || is_zero (prop instances "length") = true ->
         k instances = Ret (ok "No async report instances found for this report.").
Proof.
  intros Hop Hid. unfold dispatch. rewrite Hop, Hid.
  cbn [String.eqb Ascii.eqb Bool.eqb]. unfold getInstances_report.
  rewrite await_then_pure. eexists. split; [reflexivity|].
  intros instances Hempty. cbv beta. now rewrite Hempty.
Qed.

Lemma dispatch_getInstanceResults (conn : Conn) (args : ManageReportsArgs)
    (id inst : string) :
  operation args = "getInstanceResults" ->
  given (reportId args) = Some id ->
  given (instanceId args) = Some inst ->
  dispatch conn args []
  = (bind (conn (Retrieve id inst))
          (fun result =>
             formatted <- formatReportResults result (flag (includeDetails args)) ;;
             Ret (ok formatted)),
     [Retrieve id inst]).
Proof.
  intros Hop Hid Hinst. unfold dispatch. rewrite Hop, Hid, Hinst.
  cbn [String.eqb Ascii.eqb Bool.eqb]. unfold getInstanceResults_report.
  now rewrite await_then_pure.
Qed.

(** X1.  One invocation issues at most one call on the connection. *)
Theorem at_most_one_call (conn : Conn) (args : ManageReportsArgs) :
  List.length (calls (handleManageReports conn args)) <= 1.
Proof.
  rewrite calls_of_dispatch.
  destruct (dispatch_shape conn args) as [[r [-> _]]|[c [k ->]]]; cbn; lia.
Qed.

(** X2.  A result that is not an error was computed from the answer of a
    call: exactly one call was issued and the connection answered it with
    a value.  Nothing is reported as a success without a remote answer. *)
Theorem success_needs_an_answer (conn : Conn) (args : ManageReportsArgs) :
  isError (response (handleManageReports conn args)) = false ->
  exists c v, calls (handleManageReports conn args) = [c] /\ conn c = Ret v.
Proof.
  intros Hok.
  destruct (dispatch_shape conn args) as [[r [Hd Herr]]|[c [k Hd]]];
    rewrite (response_of_dispatch _ _ _ _ Hd) in *; cbn [response calls] in *.
  - congruence.
  - exists c. destruct (conn c) as [v|e] eqn:Hc; [now exists v|].
    cbn in Hok. discriminate Hok.
Qed.

Definition one_instance : Conn :=
  fun _ => Ret (JArr [JObj [("id", JStr "0LG1"); ("status", JStr "Success")]]).

Definition instances_of_report : ManageReportsArgs :=
  {| operation := "getInstances"; reportId := Some "00O000000000001";
     instanceId := None; includeDetails := None; filters := None;
     queryFilter := None; limit := None |}.

Lemma success_needs_an_answer_example :
  exists c v,
    calls (handleManageReports one_instance instances_of_report) = [c]
    /\ one_instance c = Ret v.
Proof.
  apply (success_needs_an_answer one_instance instances_of_report).
  reflexivity.
Defined.

(** X3.  A [list] request without a query filter (absent or empty) issues
    no SOQL query: its one call is the recently-viewed-reports call,
    whatever [limit] says. *)
Theorem list_without_filter_asks_for_recent_reports
    (conn : Conn) (args : ManageReportsArgs) :
  operation args = "list" ->
  given (queryFilter args) = None ->
  calls (handleManageReports conn args) = [RecentReports].
Proof.
  intros Hop Hq. rewrite calls_of_dispatch.
  destruct (dispatch_list_recent conn args Hop Hq) as [k ->]. reflexivity.
Qed.

Definition list_with_empty_filter : ManageReportsArgs :=
  {| operation := "list"; reportId := None; instanceId := None;
     includeDetails := None; filters := None; queryFilter := Some "";
     limit := Some 10%Z |}.

Lemma list_without_filter_example :
  calls (handleManageReports silent list_with_empty_filter) = [RecentReports].
Proof.
  apply (list_without_filter_asks_for_recent_reports silent
           list_with_empty_filter); reflexivity.
Defined.

(** X4.  An operation outside the six of the [switch] is answered with
    [isError = true] and the text that names it and lists the valid
    operations; no call is issued, whatever the other arguments are. *)
Theorem unknown_operation_is_refused (conn : Conn) (args : ManageReportsArgs) :
  ~ In (operation args) known_operations ->
  handleManageReports conn args
  = {| response :=
         failed ("Unknown report operation: " ++ operation args
           ++ ". Valid operations: list, describe, execute, executeAsync, getInstances, getInstanceResults");
       calls := [] |}.
Proof.
  intros Hop.
  apply (response_of_dispatch conn args
           (Ret (failed ("Unknown report operation: " ++ operation args
              ++ ". Valid operations: list, describe, execute, executeAsync, getInstances, getInstanceResults")))
           []).
  unfold dispatch.
  unfold known_operations, report_operations in Hop. cbn [In] in Hop.
  repeat match goal with
  | |- context [String.eqb (operation args) ?name] =>
      destruct (String.eqb_spec (operation args) name) as [E|_];
        [exfalso; apply Hop; rewrite E; tauto|]
  end.
  reflexivity.
Qed.

Definition delete_report : ManageReportsArgs :=
  {| operation := "delete"; reportId := Some "00O000000000001";
     instanceId := None; includeDetails := None; filters := None;
     queryFilter := None; limit := None |}.

Lemma unknown_operation_example :
  handleManageReports silent delete_report
  = {| response :=
         failed "Unknown report operation: delete. Valid operations: list, describe, execute, executeAsync, getInstances, getInstanceResults";
       calls := [] |}.
Proof.
  apply (unknown_operation_is_refused silent delete_report).
  cbn. intros [E|[E|[E|[E|[E|[E|[]]]]]]]; discriminate E.
Defined.

(** X5.  With the ids given, [describe] issues [describe] on the report,
    [getInstances] issues [instances] on it, and [getInstanceResults]
    issues [retrieve] on the named instance of the report; each issues
    nothing else. *)
Theorem report_operations_are_routed
    (conn : Conn) (args : ManageReportsArgs) (id : string) :
  given (reportId args) = Some id ->
  (operation args = "describe" ->
   calls (handleManageReports conn args) = [Describe id])
  /\ (operation args = "getInstances" ->
      calls (handleManageReports conn args) = [Instances id])
  /\ (forall inst,
        operation args = "getInstanceResults" ->
        given (instanceId args) = Some inst ->
        calls (handleManageReports conn args) = [Retrieve id inst]).
Proof.
  intros Hid. rewrite calls_of_dispatch. repeat split.
  - intros Hop. destruct (dispatch_describe conn args id Hop Hid) as [k ->].
    reflexivity.
  - intros Hop.
    destruct (dispatch_getInstances conn args id Hop Hid) as [k [-> _]].
    reflexivity.
  - intros inst Hop Hinst.
    now rewrite (dispatch_getInstanceResults conn args id inst Hop Hid Hinst).
Qed.

Lemma report_operations_routed_example :
  calls (handleManageReports silent instances_of_report)
  = [Instances "00O000000000001"].
Proof.
  apply (report_operations_are_routed silent instances_of_report
           "00O000000000001"); reflexivity.
Defined.

(** X6.  A limit that is a safe integer other than zero is written into
    the query in decimal digits, with no bound and no sign check: the query
    ends with "LIMIT <limit>", also for a negative limit. *)
Theorem nonzero_limit_is_passed_as_given
    (conn : Conn) (args : ManageReportsArgs) (q : string) (n : Z) :
  operation args = "list" ->
  given (queryFilter args) = Some q ->
  limit args = Some n ->
  n <> 0%Z ->
  FormatterProps.safe_integer n = true ->
  exists soql,
    calls (handleManageReports conn args) = [Query soql]
    /\ ends_with soql ("WHERE " ++ q ++ " LIMIT " ++ string_of_Z n) = true.
Proof.
  intros Hop Hq Hlim Hn _. exists (list_soql q (limit args)). split.
  - rewrite calls_of_dispatch. unfold dispatch. rewrite Hop, Hq.
    cbn [String.eqb Ascii.eqb Bool.eqb]. apply list_by_query_calls.
  - destruct (list_soql_unfold q (limit args)) as [clause [-> ->]].
    rewrite Hlim. apply Z.eqb_neq in Hn. rewrite Hn.
    rewrite <- (append_assoc "WHERE " q), <- (append_assoc ("WHERE " ++ q)).
    rewrite append_assoc. apply ends_with_append.
Qed.

Lemma negative_limit_example :
  exists soql,
    calls (handleManageReports silent (list_revenue (Some (-5)%Z))) = [Query soql]
    /\ ends_with soql ("WHERE " ++ "Format = 'MATRIX'" ++ " LIMIT " ++ "-5") = true.
Proof.
  apply (nonzero_limit_is_passed_as_given silent (list_revenue (Some (-5)%Z))
           "Format = 'MATRIX'" (-5)%Z); try reflexivity. discriminate.
Defined.

(** X7.  The options object holds [details] exactly when [includeDetails]
    is true and [metadata] exactly when [filters] is a non-empty sequence,
    in this order, and nothing else: an empty [filters] sequence overrides
    nothing, and a request with neither runs the report with empty
    options. *)
Theorem options_hold_only_what_was_asked
    (includeDetails : option bool) (filters : option (list ReportFilter)) :
  object_keys (execute_options includeDetails filters)
  = Ret ((if flag includeDetails then ["details"] else [])
         ++ match filters with
            | Some (_ :: _) => ["metadata"]
            | _ => []
            end)%list
  /\ get_opt (execute_options includeDetails filters) "details"
     = (if flag includeDetails then JBool true else JUndef).
Proof.
  unfold execute_options.
  destruct (flag includeDetails); destruct filters as [[|f fs]|]; split; reflexivity.
Qed.

(** X8.  [execute] answers with the formatter's text for the tree the
    connection returned, formatted with the request's [includeDetails];
    when the formatter raises on that tree, the fault is caught and
    translated like a fault of the connection. *)
Theorem execute_formats_the_answer
    (conn : Conn) (args : ManageReportsArgs) (id : string) (result : jsval) :
  operation args = "execute" ->
  given (reportId args) = Some id ->
  conn (Execute id (execute_options (includeDetails args) (filters args)))
  = Ret result ->
  response (handleManageReports conn args)
  = match formatReportResults result (flag (includeDetails args)) with
    | Ret formatted => ok formatted
    | Throw e =>
        failed ("Error in report execute: " ++ enhancedError (errorMessage e))
    end.
Proof.
  intros Hop Hid Hconn.
  rewrite (response_of_dispatch _ _ _ _ (dispatch_execute conn args id Hop Hid)).
  cbn [response]. rewrite Hconn, Hop. cbn [bind].
  now destruct (formatReportResults result (flag (includeDetails args))).
Qed.

(** A service that answers every run with a row that has no cells. *)
Definition broken_rows : Conn :=
  fun _ => Ret (JObj [("factMap",
                       JObj [("T!T", JObj [("rows", JArr [JObj []])])])]).

Lemma execute_formats_example :
  response (handleManageReports broken_rows (run_with_filter "execute"))
  = failed "Error in report execute: Cannot read properties of undefined (reading 'map')".
Proof.
  rewrite (execute_formats_the_answer broken_rows (run_with_filter "execute")
             "00O000000000001"
             (JObj [("factMap",
                     JObj [("T!T", JObj [("rows", JArr [JObj []])])])]));
    reflexivity.
Defined.

(** X9.  [getInstanceResults] answers with the formatter's text for the
    retrieved tree, honouring [includeDetails] as [execute] does; a fault
    of the formatter is caught and translated. *)
Theorem getInstanceResults_formats_the_answer
    (conn : Conn) (args : ManageReportsArgs) (id inst : string) (result : jsval) :
  operation args = "getInstanceResults" ->
  given (reportId args) = Some id ->
  given (instanceId args) = Some inst ->
  conn (Retrieve id inst) = Ret result ->
  response (handleManageReports conn args)
  = match formatReportResults result (flag (includeDetails args)) with
    | Ret formatted => ok formatted
    | Throw e =>
        failed ("Error in report getInstanceResults: "
                ++ enhancedError (errorMessage e))
    end.
Proof.
  intros Hop Hid Hinst Hconn.
  rewrite (response_of_dispatch _ _ _ _
             (dispatch_getInstanceResults conn args id inst Hop Hid Hinst)).
  cbn [response]. rewrite Hconn, Hop. cbn [bind].
  now destruct (formatReportResults result (flag (includeDetails args))).
Qed.

Definition results_of_instance : ManageReportsArgs :=
  {| operation := "getInstanceResults"; reportId := Some "00O000000000001";
     instanceId := Some "0LG000000000001"; includeDetails := None;
     filters := None; queryFilter := None; limit := None |}.

Definition empty_answer : Conn := fun _ => Ret (JObj []).

Lemma getInstanceResults_formats_example :
  response (handleManageReports empty_answer results_of_instance)
  = ok "No data returned.".
Proof.
  rewrite (getInstanceResults_formats_the_answer empty_answer
             results_of_instance "00O000000000001" "0LG000000000001" (JObj []));
    reflexivity.
Defined.

(** X10.  When the report has no instances, the answer being falsy or an
    empty array, [getInstances] answers with the fixed "no instances"
    text and [isError = false]. *)
Theorem no_instances_is_not_an_error
    (conn : Conn) (args : ManageReportsArgs) (id : string) (instances : jsval) :
  operation args = "getInstances" ->
  given (reportId args) = Some id ->
  conn (Instances id) = Ret instances ->
  truthy instances = false \/ instances = JArr [] ->
  response (handleManageReports conn args)
  = ok "No async report instances found for this report.".
Proof.
  intros Hop Hid Hconn Hnone.
  destruct (dispatch_getInstances conn args id Hop Hid) as [k [Hd Hk]].
  rewrite (response_of_dispatch _ _ _ _ Hd). cbn [response].
  rewrite Hconn. cbn [bind]. rewrite Hk; [reflexivity|].
  destruct Hnone as [Hf| ->]; [now rewrite Hf | reflexivity].
Qed.

Definition no_runs : Conn := fun _ => Ret (JArr []).

Lemma no_instances_example :
  response (handleManageReports no_runs instances_of_report)
  = ok "No async report instances found for this report.".
Proof.
  apply (no_instances_is_not_an_error no_runs instances_of_report
           "00O000000000001" (JArr [])); try reflexivity. now right.
Defined.

(** *** The listings *)









(** X12.  A query answer without an array of records is reported as an
    error: when [records] is missing the [list] request is answered with
    [isError = true] and the engine's message about reading [map]. *)
Theorem query_answer_without_records_is_an_error
    (conn : Conn) (args : ManageReportsArgs) (q : string) (result : jsval) :
  operation args = "list" ->
  given (queryFilter args) = Some q ->
  conn (Query (list_soql q (limit args))) = Ret result ->
  nullish result = false ->
  nullish (prop result "records") = true ->
  response (handleManageReports conn args)
  = failed ("Error in report list: Cannot read properties of "
            ++ to_string (prop result "records") ++ " (reading 'map')").
Proof.
  intros Hop Hq Hconn Hres Hrec.
  unfold handleManageReports, dispatch. rewrite Hop, Hq.
  cbn [String.eqb Ascii.eqb Bool.eqb]. unfold list_by_query. cbv zeta.
  rewrite await_then_pure, Hconn. cbn [bind].
  rewrite (get_defined _ _ Hres). cbn [bind].
  destruct (prop result "records"); try discriminate Hrec; reflexivity.
Qed.

Lemma query_answer_without_records_example :
  response (handleManageReports empty_answer (list_revenue None))
  = failed "Error in report list: Cannot read properties of undefined (reading 'map')".
Proof.
  apply (query_answer_without_records_is_an_error empty_answer
           (list_revenue None) "Format = 'MATRIX'" (JObj [])); reflexivity.
Defined.









(** *** [describe] and [executeAsync] *)

(** The five lines every description starts with. *)
Definition description_head (rm : jsval) : list string :=
  [ "Report: " ++ to_string (prop rm "name");
    "ID: " ++ to_string (prop rm "id");
    "Format: " ++ to_string (prop rm "reportFormat");
    "Report Type: "
      ++ to_string (or_else (get_opt (prop rm "reportType") "type") (JStr "N/A"));
    "Description: " ++ to_string (or_else (prop rm "description") (JStr "N/A")) ].

(** The values the head lines print. *)
Definition head_values (rm : jsval) : list jsval :=
  [ prop rm "name"; prop rm "id"; prop rm "reportFormat";
    get_opt (prop rm "reportType") "type"; prop rm "description" ].

(** A section of the description has nothing to list: its value has no
    [length] above zero, and none that is text or a container. *)
Definition nothing_listed (v : jsval) : Prop :=
  FormatterProps.plain_length v && negb (gt0 (get_opt v "length")) = true.

Lemma nothing_listed_skipped (v : jsval) :
  nothing_listed v -> gt0 (get_opt v "length") = false.
Proof.
  unfold nothing_listed. intros H. apply andb_prop in H.
  destruct H as [_ H]. now apply negb_true_iff in H.
Qed.

(** X13.  [describe] omits every empty section: for a report without
    detail columns, groupings, filters, aggregate columns and categories,
    whose head values print exactly, the text is exactly the five head
    lines, with "N/A" for a missing report type or description, and no
    section title. *)
Theorem describe_omits_empty_sections
    (conn : Conn) (args : ManageReportsArgs) (id : string) (meta : jsval) :
  operation args = "describe" ->
  given (reportId args) = Some id ->
  conn (Describe id) = Ret meta ->
  let rm := prop meta "reportMetadata" in
  nullish meta = false ->
  nullish rm = false ->
  forallb FormatterProps.exact_text (head_values rm) = true ->
  nothing_listed (prop rm "detailColumns") ->
  nothing_listed (prop rm "groupingsDown") ->
  nothing_listed (prop rm "groupingsAcross") ->
  nothing_listed (prop rm "reportFilters") ->
  FormatterProps.own_keys
    (get_opt (prop meta "reportExtendedMetadata") "aggregateColumnInfo") = [] ->
  nothing_listed (get_opt (prop meta "reportTypeMetadata") "categories") ->
  response (handleManageReports conn args) = ok (join nl (description_head rm)).
Proof.
  intros Hop Hid Hconn rm Hmeta Hrm _ Hcols Hdown Hacross Hfilters Haggs Hcats.
  apply nothing_listed_skipped in Hcols, Hdown, Hacross, Hfilters, Hcats.
  subst rm.
  unfold handleManageReports, dispatch. rewrite Hop, Hid.
  cbn [String.eqb Ascii.eqb Bool.eqb]. unfold describe_report.
  rewrite await_then_pure, Hconn. cbn [bind]. cbv zeta.
  rewrite !(get_defined _ _ Hmeta). cbn [bind].
  rewrite !(get_defined _ _ Hrm). cbn [bind].
  unfold describe_groupings.
  rewrite Hcols, Hdown, Hacross, Hfilters, Hcats. cbn [bind].
  set (aggInfo := get_opt (prop meta "reportExtendedMetadata")
                          "aggregateColumnInfo") in *.
  destruct (truthy aggInfo) eqn:Htruthy; [|reflexivity].
  unfold FormatterProps.own_keys in Haggs.
  destruct (object_keys aggInfo) as [keys|e] eqn:Hkeys.
  - subst keys. reflexivity.
  - destruct aggInfo; cbn in *; discriminate.
Qed.

Definition bare_report : jsval :=
  JObj [("reportMetadata",
         JObj [("name", JStr "Pipeline"); ("id", JStr "00O1");
               ("reportFormat", JStr "TABULAR")])].

Definition describes_bare_report : Conn := fun _ => Ret bare_report.

Definition describe_it : ManageReportsArgs :=
  {| operation := "describe"; reportId := Some "00O1"; instanceId := None;
     includeDetails := None; filters := None; queryFilter := None;
     limit := None |}.

Lemma describe_omits_example :
  response (handleManageReports describes_bare_report describe_it)
  = ok (join nl ["Report: Pipeline"; "ID: 00O1"; "Format: TABULAR";
                 "Report Type: N/A"; "Description: N/A"]).
Proof.
  apply (describe_omits_empty_sections describes_bare_report describe_it
           "00O1" bare_report); reflexivity.
Defined.

(** X14.  A description without [reportMetadata] cannot be rendered: the
    [describe] request is answered with [isError = true] and the engine's
    message about reading [name], after the one [describe] call. *)
Theorem describe_without_metadata_is_an_error
    (conn : Conn) (args : ManageReportsArgs) (id : string) (meta : jsval) :
  operation args = "describe" ->
  given (reportId args) = Some id ->
  conn (Describe id) = Ret meta ->
  nullish meta = false ->
  nullish (prop meta "reportMetadata") = true ->
  handleManageReports conn args
  = {| response :=
         failed ("Error in report describe: Cannot read properties of "
                 ++ to_string (prop meta "reportMetadata")
                 ++ " (reading 'name')");
       calls := [Describe id] |}.
Proof.
  intros Hop Hid Hconn Hmeta Hrm.
  unfold handleManageReports, dispatch. rewrite Hop, Hid.
  cbn [String.eqb Ascii.eqb Bool.eqb]. unfold describe_report.
  rewrite await_then_pure, Hconn. cbn [bind]. cbv zeta.
  rewrite (get_defined _ _ Hmeta). cbn [bind].
  unfold get at 1. rewrite Hrm. cbn [bind].
  destruct (prop meta "reportMetadata"); try discriminate Hrm; reflexivity.
Qed.

Lemma describe_without_metadata_example :
  handleManageReports empty_answer describe_it
  = {| response :=
         failed "Error in report describe: Cannot read properties of undefined (reading 'name')";
       calls := [Describe "00O1"] |}.
Proof.
  apply (describe_without_metadata_is_an_error empty_answer describe_it
           "00O1" (JObj [])); reflexivity.
Defined.




Lemma iter_pushes_each {A : Type} (g : A -> string)
    (body : A -> list string -> outcome (list string)) (l : list A)
    (lines : list string) :
  (forall x s, body x s = Ret (push s (g x))) ->
  iter body l lines = Ret (lines ++ map g l)%list.
Proof.
  intros Hbody. revert lines. induction l as [|x l IH]; intros lines.
  - cbn. now rewrite app_nil_r.
  - rewrite iter_cons, Hbody. cbn [bind]. rewrite IH. unfold push.
    now rewrite <- app_assoc.
Qed.

(** What the extended metadata says of a column prints exactly. *)
Definition printable_info (entry : string * jsval) : bool :=
  FormatterProps.exact_text (prop (snd entry) "label")
  && FormatterProps.exact_text (prop (snd entry) "dataType").

(** The line of one detail column in a description.  A column the
    extended metadata [infos] has a truthy entry for is listed with the
    entry's label, its API name and the entry's data type.  A column named
    like a member every object inherits is taken for a known column, and
    listed with [undefined] for label and data type.  Any other column is
    listed by its bare API name. *)
Definition column_line (infos : list (string * jsval)) (col : jsval) : string :=
  let name := to_string col in
  match assoc name infos with
  | Some info =>
      if truthy info
      then "  - " ++ to_string (prop info "label") ++ " (" ++ name
           ++ ") [" ++ to_string (prop info "dataType") ++ "]"
      else "  - " ++ name
  | None =>
      if existsb (String.eqb name) object_prototype_members
      then "  - undefined (" ++ name ++ ") [undefined]"
      else "  - " ++ name
  end.

(** X16.  For a report whose only section is its detail columns, with the
    extended metadata's column table an object (or absent), the description
    is the five head lines, a blank line, "Detail Columns:" and one line per
    column, in order: label, API name and data type for a column the table
    knows, the bare API name for one it does not, and
    "undefined (<name>) [undefined]" for one that is not in the table but
    is named like a member every object inherits, such as [constructor]. *)
Theorem describe_lists_detail_columns
    (conn : Conn) (args : ManageReportsArgs) (id : string) (meta : jsval)
    (col : jsval) (cols : list jsval) (infos : list (string * jsval)) :
  operation args = "describe" ->
  given (reportId args) = Some id ->
  conn (Describe id) = Ret meta ->
  let rm := prop meta "reportMetadata" in
  nullish meta = false ->
  prop rm "detailColumns" = JArr (col :: cols) ->
  or_else (get_opt (prop meta "reportExtendedMetadata") "detailColumnInfo")
          (JObj []) = JObj infos ->
  forallb FormatterProps.exact_text (head_values rm) = true ->
  forallb FormatterProps.exact_text (col :: cols) = true ->
  forallb printable_info infos = true ->
  nothing_listed (prop rm "groupingsDown") ->
  nothing_listed (prop rm "groupingsAcross") ->
  nothing_listed (prop rm "reportFilters") ->
  FormatterProps.own_keys
    (get_opt (prop meta "reportExtendedMetadata") "aggregateColumnInfo") = [] ->
  nothing_listed (get_opt (prop meta "reportTypeMetadata") "categories") ->
  response (handleManageReports conn args)
  = ok (join nl (description_head rm ++ [""; "Detail Columns:"]
                 ++ map (column_line infos) (col :: cols))%list).
Proof.
  intros Hop Hid Hconn rm Hmeta Hcols Hinfos _ _ _
         Hdown Hacross Hfilters Haggs Hcats.
  apply nothing_listed_skipped in Hdown, Hacross, Hfilters, Hcats.
  assert (Hrm : nullish rm = false).
  { subst rm. destruct (prop meta "reportMetadata"); try reflexivity;
      cbn in Hcols; discriminate. }
  subst rm.
  unfold handleManageReports, dispatch. rewrite Hop, Hid.
  cbn [String.eqb Ascii.eqb Bool.eqb]. unfold describe_report.
  rewrite await_then_pure, Hconn. cbn [bind]. cbv zeta.
  rewrite !(get_defined _ _ Hmeta). cbn [bind].
  rewrite !(get_defined _ _ Hrm). cbn [bind].
  rewrite Hcols, Hinfos.
  cbn [get_opt nullish prop String.eqb Ascii.eqb Bool.eqb gt0 to_number
       List.length for_of].
  rewrite (iter_pushes_each (column_line infos)).
  2:{ intros c s. unfold get_member, column_line.
      cbn [nullish has_own prop]. cbv zeta.
      destruct (assoc (to_string c) infos) as [info|]; cbn [bind].
      - cbn [member_truthy]. destruct (truthy info) eqn:Ht; [|reflexivity].
        cbn [read]. now rewrite !(get_defined _ _ (truthy_not_nullish _ Ht)).
      - destruct (existsb (String.eqb (to_string c)) object_prototype_members);
          reflexivity. }
  cbn [bind]. unfold describe_groupings.
  rewrite Hdown, Hacross, Hfilters, Hcats. cbn [bind].
  set (aggInfo := get_opt (prop meta "reportExtendedMetadata")
                          "aggregateColumnInfo") in *.
  destruct (truthy aggInfo) eqn:Htruthy; [|reflexivity].
  unfold FormatterProps.own_keys in Haggs.
  destruct (object_keys aggInfo) as [keys|e] eqn:Hkeys.
  - subst keys. reflexivity.
  - destruct aggInfo; cbn in *; discriminate.
Qed.

Definition two_columns : jsval :=
  JObj [("reportMetadata",
         JObj [("name", JStr "Pipeline"); ("id", JStr "00O1");
               ("reportFormat", JStr "TABULAR");
               ("detailColumns",
                JArr [JStr "ACCOUNT_NAME"; JStr "AMOUNT"; JStr "constructor"])]);
        ("reportExtendedMetadata",
         JObj [("detailColumnInfo",
                JObj [("AMOUNT", JObj [("label", JStr "Amount");
                                       ("dataType", JStr "currency")])])])].

Definition describes_two_columns : Conn := fun _ => Ret two_columns.

Lemma describe_lists_columns_example :
  response (handleManageReports describes_two_columns describe_it)
  = ok (join nl ["Report: Pipeline"; "ID: 00O1"; "Format: TABULAR";
                 "Report Type: N/A"; "Description: N/A"; "";
                 "Detail Columns:"; "  - ACCOUNT_NAME";
                 "  - Amount (AMOUNT) [currency]";
                 "  - undefined (constructor) [undefined]"]).
Proof.
  apply (describe_lists_detail_columns describes_two_columns describe_it
           "00O1" two_columns (JStr "ACCOUNT_NAME")
           [JStr "AMOUNT"; JStr "constructor"]
           [("AMOUNT", JObj [("label", JStr "Amount");
                             ("dataType", JStr "currency")])]);
    reflexivity.
Defined.

End DispatchProps.

(* ------------------------------------------------------------------ *)
(** ** The formatter: section order, summary, table headers, group rows *)
(* ------------------------------------------------------------------ *)

Module RenderingProps.
Import JS Reports JSFacts FormatterProps.

(** *** Vocabulary *)

Definition groupings_down (result : jsval) : jsval :=
  or_else (get_opt (prop result "groupingsDown") "groupings") (JArr []).

Definition groupings_across (result : jsval) : jsval :=
  or_else (get_opt (prop result "groupingsAcross") "groupings") (JArr []).

(** The informational counts of row and column groupings. *)
Definition count_line (title : string) (groupings : jsval) : list string :=
  if gt0 (prop groupings "length")
  then [title ++ to_string (prop groupings "length")]
  else [].

Definition grouping_counts (result : jsval) : list string :=
  (count_line "Row Groupings: " (groupings_down result)
   ++ count_line "Column Groupings: " (groupings_across result))%list.

(** The detail columns of the report metadata, an empty array when the
    metadata names none. *)
Definition detail_columns (metadata : jsval) : jsval :=
  or_else (get_opt metadata "detailColumns") (JArr []).

(** The label of a detail column in the table header: its label in the
    extended metadata when truthy, else the raw API name. *)
Definition header_label (columnInfo col : jsval) : jsval :=
  or_else (get_opt (prop columnInfo (to_string col)) "label") col.

(** The header row and the separator row of the detail table; nothing
    when the metadata names no detail column. *)
Definition column_headers (columnInfo : jsval) (cols : list jsval) : list string :=
  match cols with
  | [] => []
  | _ :: _ =>
      [ "  | " ++ join_vals " | " (map (header_label columnInfo) cols) ++ " |";
        "  | " ++ join " | " (map (fun _ => "---") cols) ++ " |" ]
  end.

(** The line of one active filter in the summary. *)
Definition filter_line (filter : jsval) : string :=
  "  - " ++ to_string (prop filter "column") ++ " "
  ++ to_string (prop filter "operator") ++ " "
  ++ to_string (prop filter "value").

(** The summary of a report with active filters: name, format, the
    number of filters, one line per filter, a blank line. *)
Definition summary_titles (metadata : jsval) (filters : list jsval) : list string :=
  [ "Report: " ++ to_string (prop metadata "name");
    "Format: " ++ to_string (prop metadata "reportFormat");
    "Active Filters: " ++ to_string (JNum (Z.of_nat (List.length filters))) ].

Definition filtered_summary (metadata : jsval) (filters : list jsval)
    : list string :=
  (summary_titles metadata filters ++ map filter_line filters ++ [""])%list.

(** The label of the [idx]-th cell of a group row: the column's label,
    else its raw API name, else "Col<idx>". *)
Definition inline_label (columnInfo metadata : jsval) (idx : nat) : jsval :=
  let colName := prop (detail_columns metadata) (string_of_nat idx) in
  or_else (or_else (get_opt (prop columnInfo (to_string colName)) "label") colName)
          (JStr ("Col" ++ string_of_nat idx)).

(** The "<label>: <value>" pairs of a group row, from position [idx]. *)
Fixpoint inline_cells (columnInfo metadata : jsval) (idx : nat)
    (cells : list jsval) : list string :=
  match cells with
  | [] => []
  | cell :: rest =>
      (to_string (inline_label columnInfo metadata idx) ++ ": "
       ++ to_string (resolved "" cell))
      :: inline_cells columnInfo metadata (S idx) rest
  end.

(** [line] is the inline rendering of [row], whose cells are an array. *)
Definition renders_inline (indent : string) (columnInfo metadata : jsval)
    (row : jsval) (line : string) : Prop :=
  exists cells,
    prop row "dataCells" = JArr cells
    /\ line = indent ++ "    " ++ join ", " (inline_cells columnInfo metadata 0 cells).

(** A tree on which the embedding is exact, at every depth: its numbers
    are safe integers, and none of its objects carries a [toString] of its
    own (on which the engine raises when the object is printed) or a
    [length] that is text or a container (which the engine converts to a
    number before it compares it). *)
Fixpoint exact_tree (v : jsval) : bool :=
  match v with
  | JUndef | JNull | JBool _ | JStr _ => true
  | JNum n => safe_integer n
  | JArr l =>
      (fix all (l : list jsval) : bool :=
         match l with
         | [] => true
         | x :: rest => exact_tree x && all rest
         end) l
  | JObj ps =>
      match assoc "toString" ps with
      | Some _ => false
      | None => true
      end
      && match assoc "length" ps with
         | Some (JStr _ | JArr _ | JObj _) => false
         | _ => true
         end
      && (fix all (ps : list (string * jsval)) : bool :=
            match ps with
            | [] => true
            | (_, x) :: rest => exact_tree x && all rest
            end) ps
  end.

(** The title of the detail section. *)
Definition detail_title (rows : list jsval) : list string :=
  [ ""; "Detail Rows (" ++ to_string (JNum (Z.of_nat (List.length rows))) ++ "):" ].

(** The lines of a tree with a fact map, section by section, each section
    rendered after the ones before it. *)
Definition in_sections (result : jsval) (includeDetails : bool)
    (lines summary totals details grouped : list string) : Prop :=
  let metadata := prop result "reportMetadata" in
  let aggregates := get_opt (grand_bucket result) "aggregates" in
  let rows := get_opt (grand_bucket result) "rows" in
  let head := (summary ++ grouping_counts result)%list in
  metadata_summary metadata [] = Ret summary
  /\ lines = (head ++ totals ++ details ++ grouped)%list
  (* the grand totals *)
  /\ grand_totals (fact_map result) (aggregate_info result) head
     = Ret (head ++ totals)%list
  /\ (gt0 (get_opt aggregates "length") = false -> totals = [])
  /\ (gt0 (get_opt aggregates "length") = true ->
      exists rest, totals = "" :: "Grand Totals:" :: rest)
  /\ (forall agg aggs,
        aggregates = JArr (agg :: aggs) ->
        totals = ([""; "Grand Totals:"]
                  ++ aggregate_lines "  " (aggregate_info result) 0 (agg :: aggs))%list)
  (* the detail rows *)
  /\ (includeDetails && truthy rows = false -> details = [])
  /\ (includeDetails && truthy rows = true ->
      exists rs cols table,
        rows = JArr rs
        /\ detail_columns metadata = JArr cols
        /\ details = (detail_title rs ++ column_headers (column_info result) cols
                      ++ table)%list
        /\ Forall2 (renders_row "") rs table)
  (* the grouped results *)
  /\ (gt0 (prop (groupings_down result) "length") = false -> grouped = [])
  /\ (gt0 (prop (groupings_down result) "length") = true ->
      exists more,
        grouped = "" :: "Grouped Results:" :: more
        /\ formatGroupings (groupings_down result) (fact_map result)
             (aggregate_info result) (column_info result) metadata includeDetails
             (push (push (head ++ totals ++ details)%list "") "Grouped Results:") 0
           = Ret (push (push (head ++ totals ++ details)%list "") "Grouped Results:"
                  ++ more)%list).

(** *** Loops that push one line per element *)

Lemma Forall2_is_map {A B : Type} (g : A -> B) (l : list A) (ys : list B) :
  Forall2 (fun x y => y = g x) l ys -> ys = map g l.
Proof.
  induction 1 as [|x y l ys -> _ IH]; [reflexivity | cbn; now rewrite IH].
Qed.

Lemma Forall2_same_length {A B : Type} (R : A -> B -> Prop) (l : list A)
    (ys : list B) :
  Forall2 R l ys -> List.length ys = List.length l.
Proof.
  induction 1; cbn; [reflexivity | now f_equal].
Qed.

(** *** The metadata summary *)

Lemma metadata_summary_extends (metadata : jsval) :
  extends (metadata_summary metadata).
Proof.
  intros lines out H. unfold metadata_summary in H.
  destruct (truthy metadata); [|injection H as <-; exists []; now rewrite app_nil_r].
  returns H. injection H as <-.
  destruct (gt0 (get_opt x1 "length")).
  - returns Hx2.
    assert (E : exists added,
               x2 = (push (push (push lines ("Report: " ++ to_string x))
                                ("Format: " ++ to_string x0))
                          ("Active Filters: " ++ to_string x3) ++ added)%list).
    { revert Hx2. apply extends_for_of. intros f ls o Hf.
      returns Hf. injection Hf as <-. added_lines. }
    destruct E as [added ->]. added_lines.
  - injection Hx2 as <-. added_lines.
Qed.

(** The summary of a report with active filters. *)
Lemma summary_with_filters (metadata : jsval) (f : jsval) (fs : list jsval)
    (lines out : list string) :
  metadata_summary metadata lines = Ret out ->
  prop metadata "reportFilters" = JArr (f :: fs) ->
  out = (lines ++ filtered_summary metadata (f :: fs))%list.
Proof.
  intros H Hfilters. unfold metadata_summary in H.
  destruct (truthy metadata) eqn:Hmd.
  2:{ destruct metadata; cbn in Hmd, Hfilters; discriminate. }
  returns H. injection H as <-.
  apply get_returns in Hx. destruct Hx as [_ ->].
  apply get_returns in Hx0. destruct Hx0 as [_ ->].
  apply get_returns in Hx1. destruct Hx1 as [_ ->].
  rewrite Hfilters in Hx2.
  cbn [get_opt nullish prop String.eqb Ascii.eqb Bool.eqb gt0 to_number] in Hx2.
  change (0 <? Z.of_nat (List.length (f :: fs)))%Z with true in Hx2.
  cbv iota in Hx2. returns Hx2. apply get_returns in Hx. destruct Hx as [_ ->].
  cbn [prop String.eqb Ascii.eqb Bool.eqb for_of] in Hx2.
  match type of Hx2 with iter ?body _ ?start = _ =>
    destruct (iter_pushes (fun x y => y = filter_line x) body) with
      (l := (f :: fs)) (s := start) (s' := x2) as [ys [Hys ->]]; [|exact Hx2|]
  end.
  - intros x s s' Hbody. returns Hbody. injection Hbody as <-.
    apply get_returns in Hx. destruct Hx as [_ ->].
    apply get_returns in Hx0. destruct Hx0 as [_ ->].
    apply get_returns in Hx1. destruct Hx1 as [_ ->].
    eexists. split; reflexivity.
  - apply Forall2_is_map in Hys. subst ys.
    unfold push, filtered_summary, summary_titles.
    now rewrite <- !app_assoc.
Qed.

(** *** The sections after the summary *)

Lemma grand_totals_shape (factMap aggregateInfo : jsval)
    (lines totals : list string) :
  grand_totals factMap aggregateInfo lines = Ret (lines ++ totals)%list ->
  totals = [] \/ exists rest, totals = "" :: "Grand Totals:" :: rest.
Proof.
  intros H. unfold grand_totals in H. returns H.
  assert (Hsame : Ret lines = Ret (lines ++ totals)%list -> totals = []).
  { intros E. injection E as E. rewrite <- (app_nil_r lines) in E at 1.
    now apply app_inv_head in E. }
  destruct (truthy x); [|left; now apply Hsame].
  returns H. destruct (gt0 (get_opt x0 "length")); [|left; now apply Hsame].
  right. destruct (push_aggregates_extends _ _ _ _ _ H) as [added E].
  unfold push in E. rewrite <- !app_assoc in E. apply app_inv_head in E.
  now exists added.
Qed.

Lemma header_labels_returned (columnInfo : jsval) (cols : list jsval)
    (i : nat) (labels : list jsval) :
  mapi (fun col (_ : nat) =>
          info <- get_computed columnInfo col ;;
          Ret (or_else (get_opt info "label") col)) cols i = Ret labels ->
  labels = map (header_label columnInfo) cols.
Proof.
  intros H. apply mapi_returns in H. apply Forall2_is_map.
  induction H as [|col label cols labels [j Hj] _ IH]; constructor; [|exact IH].
  returns Hj. injection Hj as <-. unfold get_computed in Hx.
  apply get_returns in Hx. destruct Hx as [_ ->]. reflexivity.
Qed.

(** The detail section, line by line. *)
Lemma detail_section (factMap columnInfo metadata : jsval)
    (lines out : list string) :
  detail_rows factMap columnInfo metadata true lines = Ret out ->
  truthy (get_opt (prop factMap "T!T") "rows") = true ->
  exists rows cols table,
    get_opt (prop factMap "T!T") "rows" = JArr rows
    /\ detail_columns metadata = JArr cols
    /\ out = (lines
              ++ [""; "Detail Rows (" ++ to_string (JNum (Z.of_nat (List.length rows)))
                      ++ "):"]%string
              ++ column_headers columnInfo cols ++ table)%list
    /\ Forall2 (renders_row "") rows table.
Proof.
  unfold detail_rows. intros H Hrows. returns H.
  apply get_returns in Hx. destruct Hx as [_ ->].
  rewrite Hrows in H. cbn [andb] in H. cbv zeta in H. returns H.
  apply get_returns in Hx. destruct Hx as [_ ->].
  apply method_map_returns in Hx0. destruct Hx0 as [cols [Hcols Hmap]].
  apply header_labels_returned in Hmap. subst x0.
  fold (detail_columns metadata) in Hcols.
  destruct (get_opt (prop factMap "T!T") "rows") as [ | | | | t | rows | ];
    try discriminate H.
  - cbn [for_of] in H. destruct t as [|c t]; [discriminate Hrows|].
    cbn in H. discriminate H.
  - exists rows, cols. cbn [for_of] in H.
    match type of H with iter ?body _ ?start = _ =>
      destruct (iter_pushes (renders_row "") body) with (l := rows)
        (s := start) (s' := out) as [table [Htable ->]]; [|exact H|]
    end.
    + intros row s s' Hrow. returns Hrow. injection Hrow as <-.
      apply get_returns in Hx. destruct Hx as [_ ->].
      apply method_map_returns in Hx0. destruct Hx0 as [cells [Hcells Hmap]].
      eexists. split; [|reflexivity]. exists cells. split; [exact Hcells|].
      unfold cell_value in Hmap. apply cells_resolved in Hmap. now subst.
    + exists table. split; [reflexivity|]. split; [exact Hcols|].
      split; [|exact Htable].
      cbn [prop String.eqb Ascii.eqb Bool.eqb]. rewrite length_map.
      destruct cols as [|col cols]; cbn [List.length Nat.ltb Nat.leb column_headers];
        unfold push; rewrite <- ?app_assoc; cbn [app];
        rewrite ?map_map; reflexivity.
Qed.

(** A tree with a fact map, section by section. *)
Lemma rendering (result : jsval) (includeDetails : bool) (lines : list string) :
  formatReportResults_lines result includeDetails = Ret lines ->
  truthy (fact_map result) = true ->
  exists summary totals details grouped,
    let head := (summary ++ grouping_counts result)%list in
    metadata_summary (prop result "reportMetadata") [] = Ret summary
    /\ lines = (head ++ totals ++ details ++ grouped)%list
    /\ grand_totals (fact_map result) (aggregate_info result) head
       = Ret (head ++ totals)%list
    /\ detail_rows (fact_map result) (column_info result)
                   (prop result "reportMetadata") includeDetails
                   (head ++ totals)%list
       = Ret (head ++ totals ++ details)%list
    /\ (grouped = [] \/ exists rest, grouped = "" :: "Grouped Results:" :: rest)
    /\ (gt0 (prop (groupings_down result) "length") = false -> grouped = [])
    /\ (gt0 (prop (groupings_down result) "length") = true ->
        exists more,
          grouped = "" :: "Grouped Results:" :: more
          /\ formatGroupings (groupings_down result) (fact_map result)
               (aggregate_info result) (column_info result)
               (prop result "reportMetadata") includeDetails
               (push (push (head ++ totals ++ details)%list "") "Grouped Results:") 0
             = Ret (push (push (head ++ totals ++ details)%list "") "Grouped Results:"
                    ++ more)%list).
Proof.
  unfold formatReportResults_lines, fact_map, aggregate_info, column_info.
  intros H Hfm. cbv zeta in H. returns H.
  apply get_returns in Hx. destruct Hx as [_ ->].
  apply get_returns in Hx1. destruct Hx1 as [_ ->].
  apply get_returns in Hx2. destruct Hx2 as [_ ->].
  rewrite Hfm in H. cbn [negb] in H. returns H.
  apply get_returns in Hx. destruct Hx as [_ ->].
  apply get_returns in Hx1. destruct Hx1 as [_ ->].
  apply get_returns in Hx2. destruct Hx2 as [_ ->].
  apply get_returns in Hx3. destruct Hx3 as [_ ->].
  fold (groupings_down result) in *. fold (groupings_across result) in *.
  exists x0.
  assert (Hhead :
    (if gt0 (prop (groupings_across result) "length")
     then push (if gt0 (prop (groupings_down result) "length")
                then push x0 ("Row Groupings: "
                              ++ to_string (prop (groupings_down result) "length"))
                else x0)
               ("Column Groupings: "
                ++ to_string (prop (groupings_across result) "length"))
     else if gt0 (prop (groupings_down result) "length")
          then push x0 ("Row Groupings: "
                        ++ to_string (prop (groupings_down result) "length"))
          else x0)
    = (x0 ++ grouping_counts result)%list).
  { unfold grouping_counts, count_line, push.
    destruct (gt0 (prop (groupings_across result) "length"));
      destruct (gt0 (prop (groupings_down result) "length"));
      cbn [app]; rewrite <- ?app_assoc, ?app_nil_r; reflexivity. }
  rewrite Hhead in *. clear Hhead.
  set (head := (x0 ++ grouping_counts result)%list) in *.
  destruct (grand_totals_extends _ _ _ _ Hx4) as [totals ->].
  destruct (detail_rows_extends _ _ _ _ _ _ Hx5) as [details ->].
  exists totals, details.
  assert (Hg : exists grouped,
             lines = (((head ++ totals) ++ details) ++ grouped)%list
             /\ (grouped = []
                 \/ exists rest, grouped = "" :: "Grouped Results:" :: rest)
             /\ (gt0 (prop (groupings_down result) "length") = false ->
                 grouped = [])
             /\ (gt0 (prop (groupings_down result) "length") = true ->
                 exists more,
                   grouped = "" :: "Grouped Results:" :: more
                   /\ formatGroupings (groupings_down result)
                        (prop result "factMap")
                        (or_else (get_opt (prop result "reportExtendedMetadata")
                                          "aggregateColumnInfo") (JObj []))
                        (or_else (get_opt (prop result "reportExtendedMetadata")
                                          "detailColumnInfo") (JObj []))
                        (prop result "reportMetadata") includeDetails
                        (push (push ((head ++ totals) ++ details)%list "")
                              "Grouped Results:") 0
                      = Ret (push (push ((head ++ totals) ++ details)%list "")
                                  "Grouped Results:" ++ more)%list)).
  { destruct (gt0 (prop (groupings_down result) "length")).
    - destruct (formatGroupings_extends _ _ _ _ _ _ _ _ _ H) as [more ->].
      exists ("" :: "Grouped Results:" :: more).
      split; [unfold push; now rewrite <- !app_assoc|].
      split; [right; now exists more|].
      split; [discriminate|]. intros _. exists more. now split.
    - injection H as <-. exists []. rewrite app_nil_r.
      repeat split; auto; discriminate. }
  destruct Hg as [grouped [-> [Hshape [Hnone Hrun]]]]. exists grouped. cbv zeta.
  split; [exact Hx0|]. split; [now rewrite <- !app_assoc|].
  split; [exact Hx4|]. split; [|split; [exact Hshape | split; [exact Hnone|]]].
  - rewrite Hx5. now rewrite <- app_assoc.
  - rewrite <- app_assoc in Hrun. exact Hrun.
Qed.

Lemma no_grand_totals (factMap aggregateInfo : jsval)
    (lines totals : list string) :
  grand_totals factMap aggregateInfo lines = Ret (lines ++ totals)%list ->
  let aggregates := get_opt (prop factMap "T!T") "aggregates" in
  (gt0 (get_opt aggregates "length") = false -> totals = [])
  /\ (gt0 (get_opt aggregates "length") = true ->
      exists rest, totals = "" :: "Grand Totals:" :: rest).
Proof.
  intros H. cbv zeta. unfold grand_totals in H. returns H.
  apply get_returns in Hx. destruct Hx as [_ ->].
  assert (Hsame : Ret lines = Ret (lines ++ totals)%list -> totals = []).
  { intros E. injection E as E. rewrite <- (app_nil_r lines) in E at 1.
    now apply app_inv_head in E. }
  destruct (truthy (prop factMap "T!T")) eqn:Hbucket.
  - returns H. apply get_returns in Hx. destruct Hx as [_ ->].
    unfold get_opt at 2 4. rewrite (truthy_not_nullish _ Hbucket).
    destruct (gt0 (get_opt (prop (prop factMap "T!T") "aggregates") "length")).
    + split; [discriminate|]. intros _.
      destruct (push_aggregates_extends _ _ _ _ _ H) as [added E].
      unfold push in E. rewrite <- !app_assoc in E. apply app_inv_head in E.
      now exists added.
    + split; [intros _; now apply Hsame | discriminate].
  - split; [intros _; now apply Hsame|].
    destruct (prop factMap "T!T"); cbn in Hbucket |- *; try discriminate;
      destruct l; cbn; discriminate.
Qed.

Lemma no_detail_section (factMap columnInfo metadata : jsval)
    (includeDetails : bool) (lines details : list string) :
  detail_rows factMap columnInfo metadata includeDetails lines
  = Ret (lines ++ details)%list ->
  includeDetails && truthy (get_opt (prop factMap "T!T") "rows") = false ->
  details = [].
Proof.
  unfold detail_rows. intros H Hnone. returns H.
  apply get_returns in Hx. destruct Hx as [_ ->].
  rewrite Hnone in H. injection H as H.
  rewrite <- (app_nil_r lines) in H at 1. now apply app_inv_head in H.
Qed.

Lemma starts_with_summary (result : jsval) (includeDetails : bool)
    (lines : list string) :
  formatReportResults_lines result includeDetails = Ret lines ->
  exists summary rest,
    metadata_summary (prop result "reportMetadata") [] = Ret summary
    /\ lines = (summary ++ rest)%list.
Proof.
  intros H. destruct (truthy (fact_map result)) eqn:Hfm.
  - destruct (rendering _ _ _ H Hfm)
      as [summary [totals [details [grouped [Hs [-> _]]]]]].
    exists summary. eexists. split; [exact Hs|].
    rewrite <- !app_assoc. reflexivity.
  - unfold formatReportResults_lines, fact_map in *. cbv zeta in H. returns H.
    apply get_returns in Hx. destruct Hx as [_ ->].
    apply get_returns in Hx2. destruct Hx2 as [_ ->].
    rewrite Hfm in H. injection H as <-.
    exists x0, ["No data returned."]. now split.
Qed.

(** X17.  The lines of a tree with a fact map, on which the embedding is
    exact, are five sections in a fixed order, each rendered after the ones
    before it and nothing between them: the metadata summary; the counts of
    row and column groupings; the grand totals, which are a blank line,
    "Grand Totals:" and one line per aggregate when the bucket "T!T" carries
    an array of aggregates, and nothing when it carries none; the detail
    rows, which are a blank line, "Detail Rows (<n>):", the header rows of
    the detail columns and one table row per row when [includeDetails] is
    true and the bucket carries rows, and nothing otherwise; the grouped
    results, which are a blank line, "Grouped Results:" and the rendering
    of the row groupings from depth 0 when there are row groupings, and
    nothing otherwise. *)
Theorem sections_in_fixed_order
    (result : jsval) (includeDetails : bool) (lines : list string) :
  formatReportResults_lines result includeDetails = Ret lines ->
  truthy (fact_map result) = true ->
  exact_tree result = true ->
  exists summary totals details grouped,
    in_sections result includeDetails lines summary totals details grouped.
Proof.
  intros H Hfm _.
  destruct (rendering _ _ _ H Hfm)
    as [summary [totals [details [grouped
         [Hs [-> [Ht [Hd [_ [Hnone Hrun]]]]]]]]]].
  exists summary, totals, details, grouped. unfold in_sections. cbv zeta.
  split; [exact Hs|]. split; [now rewrite <- !app_assoc|].
  split; [exact Ht|].
  destruct (no_grand_totals _ _ _ _ Ht) as [Hno Hsome].
  split; [exact Hno|]. split; [exact Hsome|]. split.
  { intros agg aggs Haggs.
    assert (Hbucket : prop (prop (fact_map result) "T!T") "aggregates"
                      = JArr (agg :: aggs)).
    { unfold get_opt, grand_bucket in Haggs.
      destruct (nullish (prop (fact_map result) "T!T")); [discriminate|exact Haggs]. }
    pose proof (grand_totals_array _ _ _ _ _ _ Hbucket Ht) as E.
    now apply app_inv_head in E. }
  rewrite app_assoc in Hd.
  split; [exact (no_detail_section _ _ _ _ _ _ Hd)|].
  split; [|split; [exact Hnone|]].
  - intros Hrows. apply andb_prop in Hrows. destruct Hrows as [Hdet Hrows].
    subst includeDetails.
    destruct (detail_section _ _ _ _ _ Hd Hrows)
      as [rows [cols [table [Hr [Hc [E Htable]]]]]].
    apply app_inv_head in E. exists rows, cols, table.
    split; [exact Hr|]. split; [exact Hc|]. split; [exact E | exact Htable].
  - intros Hlen. destruct (Hrun Hlen) as [more [-> Hmore]]. exists more.
    split; [reflexivity | exact Hmore].
Qed.

(** A summary report: two regions, grand totals, no detail rows asked. *)
Definition by_region : jsval :=
  JObj [("reportMetadata",
         JObj [("name", JStr "Pipeline"); ("reportFormat", JStr "SUMMARY")]);
        ("groupingsDown", JObj [("groupings", JArr [west])]);
        ("factMap",
         JObj [("T!T", JObj [("aggregates", JArr [JObj [("value", JNum 3)]]);
                             ("rows", JArr [])]);
               ("0!T", JObj [("aggregates", JArr [JObj [("value", JNum 1)]])]);
               ("0_0!T", JObj [("aggregates", JArr [JObj [("value", JNum 2)]])])])].

Lemma sections_example :
  formatReportResults_lines by_region false
  = Ret ["Report: Pipeline"; "Format: SUMMARY"; ""; "Row Groupings: 1";
         ""; "Grand Totals:"; "  Aggregate 0: 3";
         ""; "Grouped Results:"; "  West (W):"; "    Aggregate 0: 1";
         "    CA (ca):"; "      Aggregate 0: 2"]
  /\ exists summary totals details grouped,
       in_sections by_region false
         ["Report: Pipeline"; "Format: SUMMARY"; ""; "Row Groupings: 1";
          ""; "Grand Totals:"; "  Aggregate 0: 3";
          ""; "Grouped Results:"; "  West (W):"; "    Aggregate 0: 1";
          "    CA (ca):"; "      Aggregate 0: 2"]
         summary totals details grouped.
Proof.
  split; [reflexivity|].
  apply (sections_in_fixed_order by_region false); reflexivity.
Defined.

(** X18.  When the report metadata carries a non-empty array of filters
    and the formatter returns, the output starts with the report's name,
    its format, "Active Filters: <n>" with the number of filters, one line
    "  - <column> <operator> <value>" per filter in order, and a blank
    line. *)
Theorem summary_lists_active_filters
    (result : jsval) (includeDetails : bool) (lines : list string)
    (f : jsval) (fs : list jsval) :
  formatReportResults_lines result includeDetails = Ret lines ->
  prop (prop result "reportMetadata") "reportFilters" = JArr (f :: fs) ->
  exists rest,
    lines = (filtered_summary (prop result "reportMetadata") (f :: fs)
             ++ rest)%list.
Proof.
  intros H Hfilters.
  destruct (starts_with_summary _ _ _ H) as [summary [rest [Hs ->]]].
  apply (summary_with_filters _ f fs) in Hs; [|exact Hfilters].
  exists rest. now rewrite Hs.
Qed.

Definition filtered_report : jsval :=
  JObj [("reportMetadata",
         JObj [("name", JStr "Pipeline"); ("reportFormat", JStr "TABULAR");
               ("reportFilters",
                JArr [JObj [("column", JStr "AMOUNT");
                            ("operator", JStr "greaterThan");
                            ("value", JStr "10000")]])])].

Lemma summary_filters_example :
  exists rest,
    ["Report: Pipeline"; "Format: TABULAR"; "Active Filters: 1";
     "  - AMOUNT greaterThan 10000"; ""; "No data returned."]
    = (filtered_summary (prop filtered_report "reportMetadata")
         [JObj [("column", JStr "AMOUNT"); ("operator", JStr "greaterThan");
                ("value", JStr "10000")]]
       ++ rest)%list.
Proof.
  apply (summary_lists_active_filters filtered_report false); reflexivity.
Defined.

(** X19.  With [includeDetails] true and rows in the bucket "T!T" of a
    tree on which the embedding is exact, the detail section is a blank line, "Detail Rows (<n>):" with the number
    of rows, then, when the metadata names detail columns, a header row of
    their labels (the raw API name where the extended metadata has no
    truthy label) and a separator row with one "---" per column, then one
    table row per row, in order, each the row's cells between bars.  What
    follows the table is the grouped results, or nothing when there are no
    row groupings. *)
Theorem detail_table_is_headed_by_column_labels
    (result : jsval) (lines : list string) :
  formatReportResults_lines result true = Ret lines ->
  truthy (get_opt (grand_bucket result) "rows") = true ->
  exact_tree result = true ->
  exists rows cols before table after,
    get_opt (grand_bucket result) "rows" = JArr rows
    /\ detail_columns (prop result "reportMetadata") = JArr cols
    /\ lines = (before
                ++ detail_title rows
                ++ column_headers (column_info result) cols
                ++ table ++ after)%list
    /\ Forall2 (renders_row "") rows table
    /\ (after = [] \/ exists more, after = "" :: "Grouped Results:" :: more)
    /\ (gt0 (prop (groupings_down result) "length") = false -> after = []).
Proof.
  intros H Hrows _.
  assert (Hfm : truthy (fact_map result) = true).
  { apply (bucket_has_fact_map result "rows"). now apply truthy_not_nullish. }
  destruct (rendering _ _ _ H Hfm)
    as [summary [totals [details [grouped
         [_ [-> [_ [Hd [Hshape [Hnone _]]]]]]]]]].
  rewrite app_assoc in Hd.
  destruct (detail_section _ _ _ _ _ Hd Hrows)
    as [rows [cols [table [Hr [Hc [E Htable]]]]]].
  apply app_inv_head in E. subst details.
  exists rows, cols, ((summary ++ grouping_counts result) ++ totals)%list,
         table, grouped.
  split; [exact Hr|]. split; [exact Hc|].
  split; [unfold detail_title; now rewrite <- !app_assoc|].
  split; [exact Htable|]. split; [exact Hshape | exact Hnone].
Qed.

Definition tabular : jsval :=
  JObj [("reportMetadata",
         JObj [("name", JStr "Accounts"); ("reportFormat", JStr "TABULAR");
               ("detailColumns", JArr [JStr "ACCOUNT_NAME"; JStr "AMOUNT"])]);
        ("reportExtendedMetadata",
         JObj [("detailColumnInfo",
                JObj [("AMOUNT", JObj [("label", JStr "Amount")])])]);
        ("factMap",
         JObj [("T!T",
                JObj [("rows",
                       JArr [JObj [("dataCells",
                                    JArr [JObj [("label", JStr "Acme")];
                                          JObj [("value", JNum 5)]])]])])])].

Lemma detail_table_example :
  formatReportResults_lines tabular true
  = Ret ["Report: Accounts"; "Format: TABULAR"; ""; ""; "Detail Rows (1):";
         "  | ACCOUNT_NAME | Amount |"; "  | --- | --- |"; "  | Acme | 5 |"]
  /\ exists rows cols before table after,
       get_opt (grand_bucket tabular) "rows" = JArr rows
       /\ detail_columns (prop tabular "reportMetadata") = JArr cols
       /\ ["Report: Accounts"; "Format: TABULAR"; ""; ""; "Detail Rows (1):";
           "  | ACCOUNT_NAME | Amount |"; "  | --- | --- |"; "  | Acme | 5 |"]
          = (before
             ++ detail_title rows
             ++ column_headers (column_info tabular) cols
             ++ table ++ after)%list
       /\ Forall2 (renders_row "") rows table
       /\ (after = [] \/ exists more, after = "" :: "Grouped Results:" :: more)
       /\ (gt0 (prop (groupings_down tabular) "length") = false -> after = []).
Proof.
  split; [reflexivity|].
  apply (detail_table_is_headed_by_column_labels tabular); reflexivity.
Defined.

(** *** The rows of a group *)

Lemma inline_cells_returned (columnInfo metadata : jsval) (cells : list jsval)
    (i : nat) (texts : list string) :
  mapi (fun cell idx =>
          colName <- get_index (or_else (get_opt metadata "detailColumns")
                                        (JArr [])) idx ;;
          info <- get_computed columnInfo colName ;;
          value <- cell_value cell ;;
          Ret (to_string
                 (or_else (or_else (get_opt info "label") colName)
                          (JStr ("Col" ++ string_of_nat idx)))
               ++ ": " ++ to_string value)) cells i = Ret texts ->
  texts = inline_cells columnInfo metadata i cells.
Proof.
  revert i texts. induction cells as [|cell cells IH]; intros i texts H.
  - injection H as <-. reflexivity.
  - cbn [mapi] in H. returns H. injection H as <-.
    returns Hx. injection Hx as <-.
    unfold get_index in Hx1. apply get_returns in Hx1. destruct Hx1 as [_ ->].
    unfold get_computed in Hx2. apply get_returns in Hx2. destruct Hx2 as [_ ->].
    apply cell_value_returns in Hx3. subst x3.
    cbn [inline_cells]. unfold inline_label, detail_columns. cbv zeta.
    f_equal. exact (IH _ _ Hx0).
Qed.

(** The bucket of subtotals and rows of a group. *)
Definition group_bucket (factMap group : jsval) : jsval :=
  prop factMap (to_string (prop group "key") ++ "!T").

(** One group, line by line. *)
Lemma group_lines (indent : string)
    (group factMap aggregateInfo columnInfo metadata : jsval)
    (includeDetails : bool) (lines out : list string) :
  formatGroup indent group factMap aggregateInfo columnInfo metadata
              includeDetails lines = Ret out ->
  exists subtotals rows,
    out = (lines ++ [header_line indent group] ++ subtotals ++ rows)%list
    /\ (forall aggs,
          get_opt (group_bucket factMap group) "aggregates" = JArr aggs ->
          subtotals = aggregate_lines (indent ++ "  ") aggregateInfo 0 aggs)
    /\ (includeDetails = false -> rows = [])
    /\ (forall r rs,
          includeDetails = true ->
          get_opt (group_bucket factMap group) "rows" = JArr (r :: rs) ->
          exists table,
            rows = (indent ++ "  Rows ("
                    ++ to_string (JNum (Z.of_nat (List.length (r :: rs))))
                    ++ "):")%string :: table
            /\ Forall2 (renders_inline indent columnInfo metadata)
                       (r :: rs) table).
Proof.
  unfold formatGroup, group_bucket. intros H. returns H.
  apply get_returns in Hx; destruct Hx as [_ ->].
  apply get_returns in Hx0; destruct Hx0 as [_ ->].
  apply get_returns in Hx1; destruct Hx1 as [_ ->].
  apply get_returns in Hx2; destruct Hx2 as [_ ->].
  cbv zeta in *. fold (header_line indent group) in *.
  set (bucket := prop factMap (to_string (prop group "key") ++ "!T")) in *.
  assert (Hsub : exists subtotals,
             x3 = (push lines (header_line indent group) ++ subtotals)%list
             /\ forall aggs, get_opt bucket "aggregates" = JArr aggs ->
                  subtotals = aggregate_lines (indent ++ "  ") aggregateInfo 0 aggs).
  { destruct (gt0 (get_opt (get_opt bucket "aggregates") "length")) eqn:Hlen.
    - destruct (push_aggregates_extends _ _ _ _ _ Hx3) as [subtotals E].
      exists subtotals. split; [exact E|]. intros aggs Haggs.
      rewrite Haggs in Hx3. apply push_aggregates_array in Hx3.
      rewrite Hx3 in E. now apply app_inv_head in E.
    - injection Hx3 as <-. exists []. split; [now rewrite app_nil_r|].
      intros aggs Haggs. rewrite Haggs in Hlen. destruct aggs; [reflexivity|].
      cbn in Hlen. discriminate Hlen. }
  destruct Hsub as [subtotals [-> Hsub]]. exists subtotals.
  destruct includeDetails.
  - cbn [andb] in H.
    destruct (gt0 (get_opt (get_opt bucket "rows") "length")) eqn:Hlen.
    + returns H. apply get_returns in Hx. destruct Hx as [_ ->].
      destruct (get_opt bucket "rows") as [ | | | | t | rows | ] eqn:Hrows;
        try discriminate H.
      * (* text: its first character has no cells *)
        destruct t as [|c t]; [discriminate Hlen|]. cbn in H. discriminate H.
      * cbn [for_of] in H.
        match type of H with iter ?body _ ?start = _ =>
          destruct (iter_pushes (renders_inline indent columnInfo metadata) body)
            with (l := rows) (s := start) (s' := out)
            as [table [Htable ->]]; [|exact H|]
        end.
        { intros row s s' Hrow. returns Hrow. injection Hrow as <-.
          apply get_returns in Hx. destruct Hx as [_ ->].
          apply method_map_returns in Hx0. destruct Hx0 as [cells [Hcells Hmap]].
          apply inline_cells_returned in Hmap. subst x0.
          eexists. split; [|reflexivity]. exists cells. now split. }
        eexists. split; [unfold push; rewrite <- !app_assoc; reflexivity|].
        split; [exact Hsub|]. split; [discriminate|].
        intros r rs _ E. injection E as ->. exists table.
        split; [reflexivity | exact Htable].
    + injection H as <-. exists []. rewrite app_nil_r.
      split; [unfold push; now rewrite <- !app_assoc|].
      split; [exact Hsub|]. split; [reflexivity|].
      intros r rs _ E. rewrite E in Hlen. cbn in Hlen. discriminate Hlen.
  - cbn [andb] in H. injection H as <-. exists []. rewrite app_nil_r.
    split; [unfold push; now rewrite <- !app_assoc|].
    split; [exact Hsub|]. split; [reflexivity|]. discriminate.
Qed.

(** X20.  Without [includeDetails] a group is printed as its header and
    its subtotals only, whatever rows its bucket holds: one line per
    aggregate of the bucket "<key>!T", behind two more spaces than the
    header, and nothing else. *)
Theorem group_without_details_has_no_rows (indent : string)
    (group factMap aggregateInfo columnInfo metadata : jsval)
    (lines out : list string) (aggs : list jsval) :
  formatGroup indent group factMap aggregateInfo columnInfo metadata false lines
  = Ret out ->
  get_opt (group_bucket factMap group) "aggregates" = JArr aggs ->
  out = (lines ++ header_line indent group
         :: aggregate_lines (indent ++ "  ") aggregateInfo 0 aggs)%list.
Proof.
  intros H Haggs. apply group_lines in H.
  destruct H as [subtotals [rows [-> [Hsub [Hrows _]]]]].
  rewrite (Hsub aggs Haggs), (Hrows eq_refl). now rewrite app_nil_r.
Qed.

(** A bucket with a subtotal and a row. *)
Definition west_bucket : jsval :=
  JObj [("0!T",
         JObj [("aggregates", JArr [JObj [("value", JNum 1)]]);
               ("rows",
                JArr [JObj [("dataCells",
                             JArr [JObj [("label", JStr "Acme")];
                                   JObj [("value", JNum 5)];
                                   JObj []])]])])].

Lemma group_without_details_example :
  formatGroup "  " west west_bucket (JObj []) (JObj []) JUndef false []
  = Ret ["  West (W):"; "    Aggregate 0: 1"]
  /\ ["  West (W):"; "    Aggregate 0: 1"]
     = ([] ++ header_line "  " west
        :: aggregate_lines ("  " ++ "  ") (JObj []) 0 [JObj [("value", JNum 1)]])%list.
Proof.
  split; [reflexivity|].
  apply (group_without_details_has_no_rows "  " west west_bucket (JObj [])
           (JObj []) JUndef [] ["  West (W):"; "    Aggregate 0: 1"]
           [JObj [("value", JNum 1)]]); reflexivity.
Defined.

(** X21.  With [includeDetails] the rows of a group follow its subtotals:
    a line "Rows (<n>):" with the number of rows, then one line per row
    holding its cells as comma-separated "<label>: <value>" pairs; the
    label is the column's label, else its raw API name, else "Col<idx>",
    and the value is the cell's label, else its value, else empty. *)
Theorem group_rows_are_printed_inline (indent : string)
    (group factMap aggregateInfo columnInfo metadata : jsval)
    (lines out : list string) (r : jsval) (rs : list jsval) :
  formatGroup indent group factMap aggregateInfo columnInfo metadata true lines
  = Ret out ->
  get_opt (group_bucket factMap group) "rows" = JArr (r :: rs) ->
  exists subtotals table,
    out = (lines ++ [header_line indent group] ++ subtotals
           ++ [indent ++ "  Rows ("
               ++ to_string (JNum (Z.of_nat (List.length (r :: rs))))
               ++ "):"]%string
           ++ table)%list
    /\ Forall2 (renders_inline indent columnInfo metadata) (r :: rs) table.
Proof.
  intros H Hrows. apply group_lines in H.
  destruct H as [subtotals [rows [-> [_ [_ Htable]]]]].
  destruct (Htable r rs eq_refl Hrows) as [table [-> HF]].
  exists subtotals, table. now split.
Qed.

Lemma group_rows_example :
  formatGroup "  " west west_bucket (JObj [])
              (JObj [("AMOUNT", JObj [("label", JStr "Amount")])])
              (JObj [("detailColumns", JArr [JStr "ACCOUNT_NAME"; JStr "AMOUNT"])])
              true []
  = Ret ["  West (W):"; "    Aggregate 0: 1"; "    Rows (1):";
         "      ACCOUNT_NAME: Acme, Amount: 5, Col2: "]
  /\ exists subtotals table,
       ["  West (W):"; "    Aggregate 0: 1"; "    Rows (1):";
        "      ACCOUNT_NAME: Acme, Amount: 5, Col2: "]
       = ([] ++ [header_line "  " west] ++ subtotals
          ++ ["  " ++ "  Rows ("
              ++ to_string (JNum (Z.of_nat (List.length
                   [JObj [("dataCells",
                           JArr [JObj [("label", JStr "Acme")];
                                 JObj [("value", JNum 5)];
                                 JObj []])]])))
              ++ "):"]%string
          ++ table)%list
       /\ Forall2 (renders_inline "  "
                     (JObj [("AMOUNT", JObj [("label", JStr "Amount")])])
                     (JObj [("detailColumns",
                             JArr [JStr "ACCOUNT_NAME"; JStr "AMOUNT"])]))
                  [JObj [("dataCells",
                          JArr [JObj [("label", JStr "Acme")];
                                JObj [("value", JNum 5)];
                                JObj []])]]
                  table.
Proof.
  split; [reflexivity|].
  apply (group_rows_are_printed_inline "  " west west_bucket (JObj [])
           (JObj [("AMOUNT", JObj [("label", JStr "Amount")])])
           (JObj [("detailColumns", JArr [JStr "ACCOUNT_NAME"; JStr "AMOUNT"])])
           [] _ _ []); reflexivity.
Defined.

End RenderingProps.
